(** * codersquare: request handlers, route registration and client retry

    A shallow embedding of
    - [LikeHandler] (server/handlers/likeHandler.ts),
    - [PostHandler] (server/handlers/postHandler.ts),
    - the route registration loop of [createServer] (server/server.ts),
    - the [retry] predicate of the web client's [queryClient].

    The handlers are [async] functions over a [Datastore].  A datastore call
    returns a promise; [await] turns a rejected promise into an exception of
    the handler, a call whose promise is dropped does not.  Each handler is
    given twice: as a function from the stored data to the data and the
    answer, for a request served alone, and as a program of steps between
    [await]s, for requests that overlap; the two are proved to agree. *)

From Stdlib Require Import String ZArith List Bool Lia.
Import ListNotations.
Local Open Scope string_scope.
Local Open Scope Z_scope.

Set Implicit Arguments.

(** ** Values *)

(** A JavaScript object whose properties hold strings ([req.params],
    [req.body]): reading a property that is not there gives [undefined]. *)
Definition Fields := list (string * string).

Fixpoint prop (k : string) (o : Fields) : option string :=
  match o with
  | [] => None
  | (k', v) :: o' => if String.eqb k k' then Some v else prop k o'
  end.

(** [truthy v] is the string held by [v] when JavaScript takes [v] for true:
    [undefined] and the empty string are the two falsy values of
    [string | undefined]. *)
Definition truthy (v : option string) : option string :=
  match v with
  | Some s => if String.eqb s "" then None else Some s
  | None => None
  end.

(** [falsy v] is JavaScript's [!v], the test by which the handlers take a
    field for missing: it is absent, or it is the empty string. *)
Definition falsy (v : option string) : bool :=
  match truthy v with
  | Some _ => false
  | None => true
  end.

(** [Post] of the shared package, as [PostHandler.create] builds it.
    [userId] is whatever [res.locals.userId] holds. *)
Module Post.
Record t : Type := Build
  { id : string;
    title : string;
    url : string;
    userId : option string;
    postedAt : Z }.
End Post.

Module Like.
Record t : Type := Build
  { postId : string;
    userId : option string }.
End Like.

Record Request : Type :=
  { params : Fields;
    body : Fields;
    headers : Fields }.

(** [res.locals]. *)
Record Locals : Type :=
  { userId : option string }.

(** What a handler sends. [StatusText] is the body of [res.sendStatus]: the
    status and nothing of the application's. *)
Inductive Body : Type :=
| StatusText
| ErrorBody (error : string)
| LikesBody (likes : Z)
| PostBody (post : Post.t)
| PostsBody (posts : list Post.t)
| HealthBody (status : string)
| GenericErrorBody.

Record Response : Type :=
  { statusCode : Z;
    payload : Body }.

(** [res.sendStatus(code)]. *)
Definition sendStatus (code : Z) : Response :=
  {| statusCode := code; payload := StatusText |}.

(** [res.status(code).send(b)]. *)
Definition status_send (code : Z) (b : Body) : Response :=
  {| statusCode := code; payload := b |}.

(** [res.send(b)]: the status stays at Express's default. *)
Definition send (b : Body) : Response := status_send 200 b.

(** The two values [PostHandler.create] takes from its environment:
    what [crypto.randomUUID()] and [Date.now()] return in this call. *)
Record Env : Type :=
  { randomUUID : string;
    now : Z }.

(** ** Promises and async functions *)

Inductive Promise (A : Type) : Type :=
| Resolved (a : A)
| Rejected (reason : string).
Arguments Resolved {A} a.
Arguments Rejected {A} reason.

(** The interface [Datastore] as the handlers use it, over a type [DB] of
    stored data.  A read returns a promise; a write returns the data after it
    with its promise.  A call takes effect when it is made, so that the next
    request sees it, whether or not the caller waits for the promise. *)
Class Datastore (DB : Type) : Type :=
  { listPosts : option string -> DB -> Promise (list Post.t);
    createPost : Post.t -> DB -> DB * Promise unit;
    getPost : string -> option string -> DB -> Promise (option Post.t);
    deletePost : string -> DB -> DB * Promise unit;
    createLike : Like.t -> DB -> DB * Promise unit;
    deleteLike : Like.t -> DB -> DB * Promise unit;
    getLikes : string -> DB -> Promise Z;
    exists_ : Like.t -> DB -> Promise bool }.

(** How the body of an async function ends. *)
Inductive Completion (A : Type) : Type :=
| Returned (a : A)
| Thrown (reason : string).
Arguments Returned {A} a.
Arguments Thrown {A} reason.

Definition Async (DB A : Type) : Type := DB -> DB * Completion A.

Definition ret {DB A : Type} (a : A) : Async DB A :=
  fun db => (db, Returned a).

Definition bind {DB A B : Type} (m : Async DB A) (k : A -> Async DB B)
  : Async DB B :=
  fun db =>
    match m db with
    | (db', Returned a) => k a db'
    | (db', Thrown e) => (db', Thrown e)
    end.

(** [await] on a read and on a write: a rejection is thrown. *)
Definition await_read {DB A : Type} (p : DB -> Promise A) : Async DB A :=
  fun db =>
    match p db with
    | Resolved a => (db, Returned a)
    | Rejected e => (db, Thrown e)
    end.

Definition await {DB A : Type} (p : DB -> DB * Promise A) : Async DB A :=
  fun db =>
    match p db with
    | (db', Resolved a) => (db', Returned a)
    | (db', Rejected e) => (db', Thrown e)
    end.

(** A call statement without [await]: the call is made, its promise is
    dropped, and the function goes on at once. *)
Definition detached {DB A : Type} (p : DB -> DB * Promise A) : Async DB unit :=
  fun db => (fst (p db), Returned tt).

Declare Scope async_scope.
Delimit Scope async_scope with async.
Notation "x <- m ;; k" := (bind m (fun x => k))
  (at level 61, m at next level, right associativity) : async_scope.
Notation "m ;;; k" := (bind m (fun _ => k))
  (at level 61, right associativity) : async_scope.
Local Open Scope async_scope.

Definition Handler (DB : Type) : Type :=
  Env -> Request -> Locals -> Async DB Response.

(** ** LikeHandler *)

Module LikeHandler.
Section WithDatastore.
Context {DB : Type} {db : Datastore DB}.

Definition create : Handler DB := fun _ req locals =>
  match truthy (prop "postId" (params req)) with
  | None => ret (status_send 400 (ErrorBody "Post ID missing"))
  | Some postId =>
      post <- await_read (getPost postId None) ;;
      match post with
      | None => ret (status_send 404 (ErrorBody "No post found with this ID"))
      | Some _ =>
          found <- await_read
                     (exists_ {| Like.postId := postId;
                                 Like.userId := userId locals |}) ;;
          if found : bool
          then ret (status_send 400
                      (ErrorBody "No more likes for same post, same userid"))
          else
            let likeForInsert :=
              {| Like.postId := postId; Like.userId := userId locals |} in
            detached (createLike likeForInsert) ;;;
            ret (sendStatus 200)
      end
  end.

Definition delete : Handler DB := fun _ req locals =>
  match truthy (prop "postId" (params req)) with
  | None => ret (status_send 400 (ErrorBody "Post ID missing"))
  | Some postId =>
      post <- await_read (getPost postId None) ;;
      match post with
      | None => ret (status_send 404 (ErrorBody "No post found with this ID"))
      | Some _ =>
          let likeForDelete :=
            {| Like.postId := postId; Like.userId := userId locals |} in
          detached (deleteLike likeForDelete) ;;;
          ret (sendStatus 200)
      end
  end.

Definition list : Handler DB := fun _ req _ =>
  match truthy (prop "postId" (params req)) with
  | None => ret (status_send 400 (ErrorBody "Post ID missing"))
  | Some postId =>
      count <- await_read (getLikes postId) ;;
      ret (send (LikesBody count))
  end.
End WithDatastore.
End LikeHandler.

(** ** PostHandler *)

Module PostHandler.
Section WithDatastore.
Context {DB : Type} {db : Datastore DB}.

Definition create : Handler DB := fun env req locals =>
  match truthy (prop "title" (body req)), truthy (prop "url" (body req)) with
  | Some title, Some url =>
      let post :=
        {| Post.id := randomUUID env;
           Post.postedAt := now env;
           Post.title := title;
           Post.url := url;
           Post.userId := userId locals |} in
      await (createPost post) ;;;
      ret (sendStatus 200)
  | _, _ => ret (sendStatus 400)
  end.

Definition delete : Handler DB := fun _ req _ =>
  match truthy (prop "postId" (body req)) with
  | None => ret (sendStatus 400)
  | Some postId =>
      detached (deletePost postId) ;;;
      ret (sendStatus 200)
  end.

Definition get : Handler DB := fun _ req locals =>
  match truthy (prop "id" (params req)) with
  | None => ret (sendStatus 400)
  | Some id =>
      postToReturn <- await_read (getPost id (userId locals)) ;;
      match postToReturn with
      | None => ret (sendStatus 404)
      | Some post => ret (send (PostBody post))
      end
  end.

Definition list : Handler DB := fun _ _ locals =>
  posts <- await_read (listPosts (userId locals)) ;;
  ret (send (PostsBody posts)).
End WithDatastore.
End PostHandler.

(** ** The error boundary *)

(** Modelled from the spec: [errHandler] (server/middleware/errorMiddleware)
    is not under src/.  The spec has it convert any failure that reaches it
    to a generic 500 that carries nothing of the failure. *)
Definition errHandler (err : string) : Response :=
  status_send 500 GenericErrorBody.

(** ** Middleware and route registration *)

(** What a middleware does with a request: hand it on with [next()], answer
    it, or hand an error on with [next(err)]. *)
Inductive Step : Type :=
| Next (locals : Locals)
| Sent (r : Response)
| NextErr (err : string).

(** The three kinds of entry [createServer] puts in a chain. *)
Inductive Stage (DB : Type) : Type :=
| jwtParseMiddleware
| enforceJwtMiddleware
| asyncHandler (handler : Handler DB).
Arguments jwtParseMiddleware {DB}.
Arguments enforceJwtMiddleware {DB}.
Arguments asyncHandler {DB} handler.

(** [Endpoints] of the shared package, by the keys of [HANDLERS]. *)
Module Endpoints.
Inductive t : Type :=
| healthz
| signin | signup | getUser | getCurrentUser
| listPosts | getPost | createPost | deletePost
| listLikes | createLike | deleteLike
| countComments | listComments | createComment | deleteComment.
End Endpoints.

(** [Object.keys(Endpoints)]. *)
Definition Object_keys_Endpoints : list Endpoints.t :=
  [ Endpoints.healthz;
    Endpoints.signin; Endpoints.signup;
    Endpoints.getUser; Endpoints.getCurrentUser;
    Endpoints.listPosts; Endpoints.getPost;
    Endpoints.createPost; Endpoints.deletePost;
    Endpoints.listLikes; Endpoints.createLike; Endpoints.deleteLike;
    Endpoints.countComments; Endpoints.listComments;
    Endpoints.createComment; Endpoints.deleteComment ].

(** The methods an endpoint is called with. *)
Module Method.
Inductive t : Type := get | post | delete.
End Method.

(** An entry of [ENDPOINT_CONFIGS]; [auth] may be left out of an entry. *)
Record EndpointConfig : Type :=
  { url : string;
    method : Method.t;
    auth : option bool }.

(** The truth value JavaScript gives an optional flag. *)
Definition flag (b : option bool) : bool :=
  match b with
  | Some true => true
  | _ => false
  end.

(** The handler objects whose classes are not under src/. *)
Module UserHandler.
Record t (DB : Type) : Type :=
  { signIn : Handler DB;
    signUp : Handler DB;
    get : Handler DB;
    getCurrent : Handler DB }.
End UserHandler.

Module CommentHandler.
Record t (DB : Type) : Type :=
  { count : Handler DB;
    create : Handler DB;
    delete : Handler DB;
    list : Handler DB }.
End CommentHandler.

(** A route as [app[config.method](config.url, ...)] binds it. *)
Record Route (DB : Type) : Type :=
  { route_method : Method.t;
    route_url : string;
    chain : list (Stage DB) }.

Section Server.
Context {DB : Type} {db : Datastore DB}.

(** [ENDPOINT_CONFIGS] of the shared package, and the handlers of users and
    comments. *)
Variable ENDPOINT_CONFIGS : Endpoints.t -> EndpointConfig.
Variable userHandler : UserHandler.t DB.
Variable commentHandler : CommentHandler.t DB.

(** The identity a request's bearer credential stands for, if it carries a
    valid one: reading and verifying the token is outside this development. *)
Variable resolveCredential : Fields -> option string.

Definition HANDLERS (entry : Endpoints.t) : Handler DB :=
  match entry with
  | Endpoints.healthz => fun _ _ _ => ret (send (HealthBody "ok!"))
  | Endpoints.signin => UserHandler.signIn userHandler
  | Endpoints.signup => UserHandler.signUp userHandler
  | Endpoints.getUser => UserHandler.get userHandler
  | Endpoints.getCurrentUser => UserHandler.getCurrent userHandler
  | Endpoints.listPosts => PostHandler.list
  | Endpoints.getPost => PostHandler.get
  | Endpoints.createPost => PostHandler.create
  | Endpoints.deletePost => PostHandler.delete
  | Endpoints.listLikes => LikeHandler.list
  | Endpoints.createLike => LikeHandler.create
  | Endpoints.deleteLike => LikeHandler.delete
  | Endpoints.countComments => CommentHandler.count commentHandler
  | Endpoints.listComments => CommentHandler.list commentHandler
  | Endpoints.createComment => CommentHandler.create commentHandler
  | Endpoints.deleteComment => CommentHandler.delete commentHandler
  end.

(** The body of the [forEach] in [createServer]. *)
Definition register (entry : Endpoints.t) : Route DB :=
  let config := ENDPOINT_CONFIGS entry in
  let handler := HANDLERS entry in
  if flag (auth config)
  then {| route_method := method config;
          route_url := url config;
          chain := [jwtParseMiddleware; enforceJwtMiddleware;
                    asyncHandler handler] |}
  else {| route_method := method config;
          route_url := url config;
          chain := [jwtParseMiddleware; asyncHandler handler] |}.

Definition routes : list (Route DB) := map register Object_keys_Endpoints.

(** Modelled from the spec: [jwtParseMiddleware] and [enforceJwtMiddleware]
    (server/middleware/authMiddleware) are not under src/.  Parse: a valid
    bearer credential attaches its identity to [res.locals.userId]; without
    one the request goes on as it is.  Enforce: a request with no identity is
    answered 401.  [asyncHandler] is the express-async-handler package: what
    the handler throws goes to [next]. *)
Definition run_stage (st : Stage DB) (env : Env) (req : Request)
  (locals : Locals) (d : DB) : DB * Step :=
  match st with
  | jwtParseMiddleware =>
      match resolveCredential (headers req) with
      | Some u => (d, Next {| userId := Some u |})
      | None => (d, Next locals)
      end
  | enforceJwtMiddleware =>
      match userId locals with
      | None => (d, Sent (sendStatus 401))
      | Some _ => (d, Next locals)
      end
  | asyncHandler handler =>
      match handler env req locals d with
      | (d', Returned r) => (d', Sent r)
      | (d', Thrown e) => (d', NextErr e)
      end
  end.

(** Express runs a chain from the left.  [app.use(errHandler)] receives what
    was passed to [next(err)]; a chain that ends without an answer falls to
    Express's own 404.  What [createServer] installs before the routes (JSON
    body parsing, CORS, static files, the request log) answers none of these
    requests and is left out. *)
Fixpoint run_chain (c : list (Stage DB)) (env : Env) (req : Request)
  (locals : Locals) (d : DB) : DB * Response :=
  match c with
  | [] => (d, sendStatus 404)
  | st :: c' =>
      match run_stage st env req locals d with
      | (d', Next locals') => run_chain c' env req locals' d'
      | (d', Sent r) => (d', r)
      | (d', NextErr e) => (d', errHandler e)
      end
  end.

(** A request served by the route of [entry]; [res.locals] starts empty. *)
Definition serve (entry : Endpoints.t) (env : Env) (req : Request) (d : DB)
  : DB * Response :=
  run_chain (chain (register entry)) env req {| userId := None |} d.

End Server.

(** A handler behind [asyncHandler] and [errHandler] alone. *)
Definition respond {DB : Type} (h : Handler DB) (env : Env) (req : Request)
  (locals : Locals) (d : DB) : DB * Response :=
  match h env req locals d with
  | (d', Returned r) => (d', r)
  | (d', Thrown e) => (d', errHandler e)
  end.

(** ** The web client's retry policy *)

(** The values the [status] property of a thrown value can hold.  A number is
    an HTTP status ([Response.status]), an integer. *)
Inductive JsValue : Type :=
| JsUndefined
| JsNumber (n : Z)
| JsString (s : string)
| JsObject.

(** [typeof v]. *)
Definition typeof (v : JsValue) : string :=
  match v with
  | JsUndefined => "undefined"
  | JsNumber _ => "number"
  | JsString _ => "string"
  | JsObject => "object"
  end.

(** [v >= k] for a [v] that is a number. *)
Definition js_ge (v : JsValue) (k : Z) : bool :=
  match v with
  | JsNumber n => k <=? n
  | _ => false
  end.

Module ApiError.
Record t : Type := Build
  { status : JsValue;
    message : string }.
End ApiError.

(** [queryClient.defaultOptions.queries.retry]. *)
Definition retry (failureCount : Z) (error : ApiError.t) : bool :=
  let status := ApiError.status error in
  if negb (String.eqb (typeof status) "number")
  then true
  else js_ge status 500 && (failureCount <? 2).

(** The query library asks [retry] after each failure, with the number of
    failures before it, and runs the query again on [true].  [refetches fuel
    n error] counts the runs it adds for a query that keeps failing with
    [error], after [n] failures, among the next [fuel] failures. *)
Fixpoint refetches (fuel : nat) (failureCount : Z) (error : ApiError.t) : nat :=
  match fuel with
  | O => O
  | S fuel' =>
      if retry failureCount error
      then S (refetches fuel' (failureCount + 1) error)
      else O
  end.

(** ** What the handlers need of a datastore *)

(** The laws of a datastore that is up: a like that was created exists, a
    like that was deleted does not, neither touches the posts, and a post
    created under an unused id is stored and read back as it is. *)
Class DatastoreLaws (DB : Type) {db : Datastore DB} : Prop :=
  { exists_createLike :
      forall l d, exists_ l (fst (createLike l d)) = Resolved true;
    getPost_createLike :
      forall l i u d, getPost i u (fst (createLike l d)) = getPost i u d;
    exists_deleteLike :
      forall l d, exists_ l (fst (deleteLike l d)) = Resolved false;
    getPost_deleteLike :
      forall l i u d, getPost i u (fst (deleteLike l d)) = getPost i u d;
    getPost_createPost :
      forall p u d,
        getPost (Post.id p) None d = Resolved None ->
        snd (createPost p d) = Resolved tt /\
        getPost (Post.id p) u (fst (createPost p d)) = Resolved (Some p) }.
Arguments DatastoreLaws DB {db}.

(** ** An in-memory datastore *)

(** Modelled from the spec: the implementation of [Datastore]
    (server/datastore) is not under src/.  Two tables, posts keyed by [id]
    and likes by the pair [(postId, userId)]; [getPost] does not filter on
    the caller. *)
Record MemDb : Type :=
  { posts : list Post.t;
    likes : list Like.t }.

Definition opt_eqb (a b : option string) : bool :=
  match a, b with
  | Some x, Some y => String.eqb x y
  | None, None => true
  | _, _ => false
  end.

Definition like_eqb (a b : Like.t) : bool :=
  String.eqb (Like.postId a) (Like.postId b)
  && opt_eqb (Like.userId a) (Like.userId b).

Definition has_id (i : string) (p : Post.t) : bool :=
  String.eqb (Post.id p) i.

Definition count_likes (i : string) (ls : list Like.t) : Z :=
  Z.of_nat (length (filter (fun l => String.eqb (Like.postId l) i) ls)).

#[export] Instance MemDb_Datastore : Datastore MemDb :=
  {| listPosts := fun _ d => Resolved (posts d);
     createPost := fun p d =>
       if existsb (has_id (Post.id p)) (posts d)
       then (d, Rejected "UNIQUE constraint failed: posts.id")
       else ({| posts := posts d ++ [p]; likes := likes d |}, Resolved tt);
     getPost := fun i _ d => Resolved (find (has_id i) (posts d));
     deletePost := fun i d =>
       ({| posts := filter (fun p => negb (has_id i p)) (posts d);
           likes := likes d |}, Resolved tt);
     createLike := fun l d =>
       ({| posts := posts d; likes := likes d ++ [l] |}, Resolved tt);
     deleteLike := fun l d =>
       ({| posts := posts d;
           likes := filter (fun l' => negb (like_eqb l l')) (likes d) |},
        Resolved tt);
     getLikes := fun i d =>
       Resolved (count_likes i (likes d));
     exists_ := fun l d => Resolved (existsb (like_eqb l) (likes d)) |}.

(** The same tables behind a connection that is down: reads answer, every
    write is rejected and changes nothing. *)
Definition Unavailable_Datastore : Datastore MemDb :=
  {| listPosts := fun _ d => Resolved (posts d);
     createPost := fun _ d => (d, Rejected "datastore unavailable");
     getPost := fun i _ d => Resolved (find (has_id i) (posts d));
     deletePost := fun _ d => (d, Rejected "datastore unavailable");
     createLike := fun _ d => (d, Rejected "datastore unavailable");
     deleteLike := fun _ d => (d, Rejected "datastore unavailable");
     getLikes := fun i d =>
       Resolved (count_likes i (likes d));
     exists_ := fun l d => Resolved (existsb (like_eqb l) (likes d)) |}.

(** ** The spec's error classes *)

(** The error classes of the spec that have a status of their own, read off
    the status line of a response as the spec's table of endpoints has them:
    400, 404 and 401. *)
Inductive ErrorClass : Type := BadRequest | NotFound | Unauthorized.

Definition error_class (r : Response) : option ErrorClass :=
  match statusCode r with
  | 400 => Some BadRequest
  | 401 => Some Unauthorized
  | 404 => Some NotFound
  | _ => None
  end.

(** ** Sample data *)

Definition env0 : Env :=
  {| randomUUID := "6f1c2a9e-0b7d-4c55-9a61-3d2e8f4b7c10";
     now := 1700000000000 |}.

Definition post1 : Post.t :=
  {| Post.id := "p1"; Post.title := "Hi"; Post.url := "http://x";
     Post.userId := Some "U1"; Post.postedAt := 1699999999000 |}.

Definition db_empty : MemDb := {| posts := []; likes := [] |}.
Definition db_post : MemDb := {| posts := [post1]; likes := [] |}.
Definition db_liked : MemDb :=
  {| posts := [post1];
     likes := [{| Like.postId := "p1"; Like.userId := Some "U2" |}] |}.

Definition as_U1 : Locals := {| userId := Some "U1" |}.
Definition as_U2 : Locals := {| userId := Some "U2" |}.

Definition req_params (k v : string) : Request :=
  {| params := [(k, v)]; body := []; headers := [] |}.

Definition req_body (b : Fields) : Request :=
  {| params := []; body := b; headers := [] |}.

Definition req_none : Request :=
  {| params := []; body := []; headers := [] |}.

Definition req_signed (k v credential : string) : Request :=
  {| params := [(k, v)]; body := [];
     headers := [("authorization", credential)] |}.

Definition sample_configs (entry : Endpoints.t) : EndpointConfig :=
  match entry with
  | Endpoints.healthz =>
      {| url := "/api/v1/healthz"; method := Method.get; auth := None |}
  | Endpoints.signin =>
      {| url := "/api/v1/signin"; method := Method.post; auth := None |}
  | Endpoints.signup =>
      {| url := "/api/v1/signup"; method := Method.post; auth := None |}
  | Endpoints.getUser =>
      {| url := "/api/v1/users/:id"; method := Method.get; auth := None |}
  | Endpoints.getCurrentUser =>
      {| url := "/api/v1/users"; method := Method.get; auth := Some true |}
  | Endpoints.listPosts =>
      {| url := "/api/v1/posts"; method := Method.get; auth := Some true |}
  | Endpoints.getPost =>
      {| url := "/api/v1/posts/:id"; method := Method.get; auth := None |}
  | Endpoints.createPost =>
      {| url := "/api/v1/posts"; method := Method.post; auth := Some true |}
  | Endpoints.deletePost =>
      {| url := "/api/v1/posts/:id"; method := Method.delete;
         auth := Some true |}
  | Endpoints.listLikes =>
      {| url := "/api/v1/likes/:postId"; method := Method.get; auth := None |}
  | Endpoints.createLike =>
      {| url := "/api/v1/likes/:postId"; method := Method.post;
         auth := Some true |}
  | Endpoints.deleteLike =>
      {| url := "/api/v1/likes/:postId"; method := Method.delete;
         auth := Some true |}
  | Endpoints.countComments =>
      {| url := "/api/v1/comments/:postId/count"; method := Method.get;
         auth := None |}
  | Endpoints.listComments =>
      {| url := "/api/v1/comments/:postId"; method := Method.get;
         auth := None |}
  | Endpoints.createComment =>
      {| url := "/api/v1/comments/:postId"; method := Method.post;
         auth := Some true |}
  | Endpoints.deleteComment =>
      {| url := "/api/v1/comments/:id"; method := Method.delete;
         auth := Some true |}
  end.

(** Stand-ins for the handlers of the classes that are not under src/. *)
Definition sample_users : UserHandler.t MemDb :=
  {| UserHandler.signIn := fun _ _ _ => ret (sendStatus 200);
     UserHandler.signUp := fun _ _ _ => ret (sendStatus 200);
     UserHandler.get := fun _ _ _ => ret (sendStatus 200);
     UserHandler.getCurrent := fun _ _ _ => ret (sendStatus 200) |}.

Definition sample_comments : CommentHandler.t MemDb :=
  {| CommentHandler.count := fun _ _ _ => ret (sendStatus 200);
     CommentHandler.create := fun _ _ _ => ret (sendStatus 200);
     CommentHandler.delete := fun _ _ _ => ret (sendStatus 200);
     CommentHandler.list := fun _ _ _ => ret (sendStatus 200) |}.

(** A credential check that knows one token. *)
Definition sample_credentials (h : Fields) : option string :=
  match prop "authorization" h with
  | Some tok => if String.eqb tok "Bearer token-of-U2" then Some "U2" else None
  | None => None
  end.

(** ** Runs of requests *)

(** The handlers of [HANDLERS] whose classes are under src/. *)
Definition src_handler {DB : Type} {db : Datastore DB} (entry : Endpoints.t)
  : option (Handler DB) :=
  match entry with
  | Endpoints.listPosts => Some PostHandler.list
  | Endpoints.getPost => Some PostHandler.get
  | Endpoints.createPost => Some PostHandler.create
  | Endpoints.deletePost => Some PostHandler.delete
  | Endpoints.listLikes => Some LikeHandler.list
  | Endpoints.createLike => Some LikeHandler.create
  | Endpoints.deleteLike => Some LikeHandler.delete
  | _ => None
  end.

(** ** Handlers as programs, and requests that overlap *)

(** The body of a handler by its steps, for runs in which requests overlap.
    An async function runs on its own up to an [await] and is suspended
    there; while it is, other requests run.  [AwaitRead] and [AwaitWrite]
    are a datastore call under [await]; [Detach] is a call whose promise is
    dropped, after which the function goes on at once; [RandomUUID] and
    [DateNow] are [crypto.randomUUID()] and [Date.now()]. *)
Inductive Prog (DB A : Type) : Type :=
| Ret (a : A)
| RandomUUID (k : string -> Prog DB A)
| DateNow (k : Z -> Prog DB A)
| AwaitRead (X : Type) (read : DB -> Promise X) (k : X -> Prog DB A)
| AwaitWrite (X : Type) (write : DB -> DB * Promise X) (k : X -> Prog DB A)
| Detach (X : Type) (write : DB -> DB * Promise X) (k : Prog DB A).
Arguments Ret {DB A} a.
Arguments RandomUUID {DB A} k.
Arguments DateNow {DB A} k.
Arguments AwaitRead {DB A X} read k.
Arguments AwaitWrite {DB A X} write k.
Arguments Detach {DB A X} write k.

(** [LikeHandler], step by step. *)
Module LikeProgram.
Section WithDatastore.
Context {DB : Type} {db : Datastore DB}.

Definition create (req : Request) (locals : Locals) : Prog DB Response :=
  match truthy (prop "postId" (params req)) with
  | None => Ret (status_send 400 (ErrorBody "Post ID missing"))
  | Some postId =>
      AwaitRead (getPost postId None) (fun post =>
      match post with
      | None => Ret (status_send 404 (ErrorBody "No post found with this ID"))
      | Some _ =>
          AwaitRead
            (exists_ {| Like.postId := postId;
                        Like.userId := userId locals |})
            (fun found : bool =>
          if found
          then Ret (status_send 400
                      (ErrorBody "No more likes for same post, same userid"))
          else
            let likeForInsert :=
              {| Like.postId := postId; Like.userId := userId locals |} in
            Detach (createLike likeForInsert)
              (Ret (sendStatus 200)))
      end)
  end.

Definition delete (req : Request) (locals : Locals) : Prog DB Response :=
  match truthy (prop "postId" (params req)) with
  | None => Ret (status_send 400 (ErrorBody "Post ID missing"))
  | Some postId =>
      AwaitRead (getPost postId None) (fun post =>
      match post with
      | None => Ret (status_send 404 (ErrorBody "No post found with this ID"))
      | Some _ =>
          let likeForDelete :=
            {| Like.postId := postId; Like.userId := userId locals |} in
          Detach (deleteLike likeForDelete)
            (Ret (sendStatus 200))
      end)
  end.

Definition list (req : Request) (locals : Locals) : Prog DB Response :=
  match truthy (prop "postId" (params req)) with
  | None => Ret (status_send 400 (ErrorBody "Post ID missing"))
  | Some postId =>
      AwaitRead (getLikes postId) (fun count =>
      Ret (send (LikesBody count)))
  end.
End WithDatastore.
End LikeProgram.

(** [PostHandler], step by step. *)
Module PostProgram.
Section WithDatastore.
Context {DB : Type} {db : Datastore DB}.

Definition create (req : Request) (locals : Locals) : Prog DB Response :=
  match truthy (prop "title" (body req)), truthy (prop "url" (body req)) with
  | Some title, Some url =>
      RandomUUID (fun id =>
      DateNow (fun postedAt =>
      let post :=
        {| Post.id := id;
           Post.postedAt := postedAt;
           Post.title := title;
           Post.url := url;
           Post.userId := userId locals |} in
      AwaitWrite (createPost post) (fun _ =>
      Ret (sendStatus 200))))
  | _, _ => Ret (sendStatus 400)
  end.

Definition delete (req : Request) (locals : Locals) : Prog DB Response :=
  match truthy (prop "postId" (body req)) with
  | None => Ret (sendStatus 400)
  | Some postId =>
      Detach (deletePost postId)
        (Ret (sendStatus 200))
  end.

Definition get (req : Request) (locals : Locals) : Prog DB Response :=
  match truthy (prop "id" (params req)) with
  | None => Ret (sendStatus 400)
  | Some id =>
      AwaitRead (getPost id (userId locals)) (fun postToReturn =>
      match postToReturn with
      | None => Ret (sendStatus 404)
      | Some post => Ret (send (PostBody post))
      end)
  end.

Definition list (req : Request) (locals : Locals) : Prog DB Response :=
  AwaitRead (listPosts (userId locals)) (fun posts =>
  Ret (send (PostsBody posts))).
End WithDatastore.
End PostProgram.

(** A program run from start to end with nothing in between, given what
    the environment answers: the handler as [LikeHandler] and [PostHandler]
    have it. *)
Fixpoint run {DB A : Type} (env : Env) (p : Prog DB A) : Async DB A :=
  match p with
  | Ret a => ret a
  | RandomUUID k => run env (k (randomUUID env))
  | DateNow k => run env (k (now env))
  | AwaitRead read k => x <- await_read read ;; run env (k x)
  | AwaitWrite write k => x <- await write ;; run env (k x)
  | Detach write k => detached write ;;; run env k
  end.

(** A request that has arrived: the endpoint it was routed to and
    [res.locals] as the gate left it. *)
Record Incoming : Type :=
  { in_entry : Endpoints.t;
    in_req : Request;
    in_locals : Locals }.

(** Its program, for the endpoints whose handlers are under src/; the other
    endpoints do nothing here. *)
Definition program_of {DB : Type} {db : Datastore DB} (i : Incoming)
  : Prog DB Response :=
  match in_entry i with
  | Endpoints.listPosts => PostProgram.list (in_req i) (in_locals i)
  | Endpoints.getPost => PostProgram.get (in_req i) (in_locals i)
  | Endpoints.createPost => PostProgram.create (in_req i) (in_locals i)
  | Endpoints.deletePost => PostProgram.delete (in_req i) (in_locals i)
  | Endpoints.listLikes => LikeProgram.list (in_req i) (in_locals i)
  | Endpoints.createLike => LikeProgram.create (in_req i) (in_locals i)
  | Endpoints.deleteLike => LikeProgram.delete (in_req i) (in_locals i)
  | _ => Ret (sendStatus 200)
  end.

(** The server between two steps: the stored data, and how many ids
    [crypto.randomUUID()] has given out. *)
Record World (DB : Type) : Type :=
  { store : DB;
    issued : nat }.

(** A request in flight: arrived and not started, suspended at an [await]
    whose call has been made, or answered. *)
Inductive Task (DB A : Type) : Type :=
| Arrived (p : Prog DB A)
| Waiting (X : Type) (result : Promise X) (k : X -> Prog DB A)
| Finished (c : Completion A).
Arguments Arrived {DB A} p.
Arguments Waiting {DB A X} result k.
Arguments Finished {DB A} c.

Section Overlap.
Context {DB : Type}.

(** The ids [crypto.randomUUID()] gives out, in the order of the calls. *)
Variable uuid_of : nat -> string.

(** A program, run at time [t] up to its next [await]: the call under the
    [await] is made, and the rest waits for its result. *)
Fixpoint segment {A : Type} (t : Z) (p : Prog DB A) (w : World DB)
  : World DB * Task DB A :=
  match p with
  | Ret a => (w, Finished (Returned a))
  | RandomUUID k =>
      segment t (k (uuid_of (issued w)))
        {| store := store w; issued := S (issued w) |}
  | DateNow k => segment t (k t) w
  | AwaitRead read k => (w, Waiting (read (store w)) k)
  | AwaitWrite write k =>
      ({| store := fst (write (store w)); issued := issued w |},
       Waiting (snd (write (store w))) k)
  | Detach write k =>
      segment t k {| store := fst (write (store w)); issued := issued w |}
  end.

(** A task taken up again: a request that arrived starts, a suspended one
    goes on with the result of its call or throws its rejection. *)
Definition resume {A : Type} (t : Z) (task : Task DB A) (w : World DB)
  : World DB * Task DB A :=
  match task with
  | Arrived p => segment t p w
  | Waiting (Resolved x) k => segment t (k x) w
  | Waiting (Rejected e) _ => (w, Finished (Thrown e))
  | Finished c => (w, Finished c)
  end.

Fixpoint replace {T : Type} (i : nat) (x : T) (xs : list T) : list T :=
  match xs, i with
  | [], _ => []
  | _ :: xs', O => x :: xs'
  | y :: xs', S i' => y :: replace i' x xs'
  end.

(** The event loop: each entry of the schedule takes up one task, by its
    place in the list, at a time of the clock. *)
Fixpoint schedule {A : Type} (s : list (nat * Z)) (tasks : list (Task DB A))
  (w : World DB) : World DB * list (Task DB A) :=
  match s with
  | [] => (w, tasks)
  | (i, t) :: s' =>
      match nth_error tasks i with
      | Some task =>
          let (w', task') := resume t task w in
          schedule s' (replace i task' tasks) w'
      | None => schedule s' tasks w
      end
  end.

(** A task taken up [n] times in a row. *)
Fixpoint resumes {A : Type} (n : nat) (t : Z) (task : Task DB A)
  (w : World DB) : World DB * Task DB A :=
  match n with
  | O => (w, task)
  | S n' => let (w', task') := resume t task w in resumes n' t task' w'
  end.

(** What a program may write, for an invariant [Inv] of the server to hold
    between any two steps: each of its writes keeps [Inv], where the writer
    may rely on the ids [ids] it has drawn so far having been given out. *)
Definition drawn (ids : list string) (w : World DB) : Prop :=
  forall u, In u ids -> exists m, (m < issued w)%nat /\ uuid_of m = u.

Definition write_keeps (Inv : World DB -> Prop) (ids : list string)
  {X : Type} (write : DB -> DB * Promise X) : Prop :=
  forall w,
    drawn ids w -> Inv w ->
    Inv {| store := fst (write (store w)); issued := issued w |}.

Fixpoint tame {A : Type} (Inv : World DB -> Prop) (ids : list string)
  (p : Prog DB A) : Prop :=
  match p with
  | Ret _ => True
  | RandomUUID k => forall u, tame Inv (u :: ids) (k u)
  | DateNow k => forall t, tame Inv ids (k t)
  | AwaitRead _ k => forall x, tame Inv ids (k x)
  | AwaitWrite write k =>
      write_keeps Inv ids write /\ forall x, tame Inv ids (k x)
  | Detach write k => write_keeps Inv ids write /\ tame Inv ids k
  end.

Definition tame_task {A : Type} (Inv : World DB -> Prop) (w : World DB)
  (task : Task DB A) : Prop :=
  match task with
  | Arrived p => tame Inv [] p
  | Waiting _ k => exists ids, drawn ids w /\ forall x, tame Inv ids (k x)
  | Finished _ => True
  end.

End Overlap.

(** The requests as they arrive. *)
Definition arrivals {DB : Type} {db : Datastore DB} (rs : list Incoming)
  : list (Task DB Response) :=
  map (fun i => Arrived (program_of i)) rs.


(** Every stored post has an id that [crypto.randomUUID()] gave out: an id
    that is none of them is the id of no post. *)
Definition Known {DB : Type} {db : Datastore DB} (uuid_of : nat -> string)
  (w : World DB) : Prop :=
  forall i,
    (forall m, (m < issued w)%nat -> uuid_of m <> i) ->
    getPost i None (store w) = Resolved None.

(** What else the handlers need of a datastore that is up: a write leaves
    the ids that are not stored as they are, but for the id of the post that
    [createPost] is given. *)
Class PostStoreLaws (DB : Type) {db : Datastore DB} : Prop :=
  { getPost_createPost_other :
      forall p i d,
        i <> Post.id p ->
        getPost i None d = Resolved None ->
        getPost i None (fst (createPost p d)) = Resolved None;
    getPost_deletePost :
      forall j i d,
        getPost i None d = Resolved None ->
        getPost i None (fst (deletePost j d)) = Resolved None }.
Arguments PostStoreLaws DB {db}.

(** A source of ids that never repeats itself: [u], [ux], [uxx], ... *)
Fixpoint tally (n : nat) : string :=
  match n with
  | O => ""
  | S n' => "x" ++ tally n'
  end.

Definition sample_uuid (n : nat) : string := "u" ++ tally n.

(** ** The web client *)

(** A value thrown that is no [ApiError] (the [TypeError] of a failed
    [fetch], the [SyntaxError] of a body that does not parse), as [error as
    ApiError] shows it: it has no [status]. *)
Definition other_error (reason : string) : ApiError.t :=
  {| ApiError.status := JsUndefined; ApiError.message := reason |}.

(** How a call of the client ends. *)
Inductive Outcome (A : Type) : Type :=
| Return (a : A)
| Throw (error : ApiError.t).
Arguments Return {A} a.
Arguments Throw {A} error.

(** [s.includes(sub)]. *)
Definition includes (s sub : string) : bool :=
  match String.index 0 sub s with
  | Some _ => true
  | None => false
  end.

(** A value in a template literal: [null] prints as its name. *)
Definition template (v : option string) : string :=
  match v with
  | Some s => s
  | None => "null"
  end.

Definition LOCAL_STORAGE_JWT : string := "jwtToken".

(** The second argument of [fetch]. *)
Record FetchInit : Type :=
  { init_method : Method.t;
    init_headers : Fields;
    init_body : option string }.

(** What [callEndpoint] reads of a [Response] of [fetch], over the type
    [Obj] of the objects a body parses to: [json] is the promise of
    [response.json()], resolved to [None] for the body [null]. *)
Module FetchResponse.
Record t (Obj : Type) : Type :=
  { ok : bool;
    status : Z;
    content_type : option string;
    json : Promise (option Obj) }.
End FetchResponse.

(** What [callEndpoint] returns: the parsed body, or the object [{}]. *)
Inductive Data (Obj : Type) : Type :=
| Parsed (j : option Obj)
| EmptyObject.
Arguments Parsed {Obj} j.
Arguments EmptyObject {Obj}.

Section Client.
(** [process.env.NODE_ENV] and [localStorage]. *)
Variable NODE_ENV : option string.
Variable localStorage : Fields.

(** The parsed objects, the string at their property [error] if there is
    one, the requests and [JSON.stringify] on them. *)
Variable Obj : Type.
Variable error_of : Obj -> option string.
Variable Req : Type.
Variable JSON_stringify : Req -> string.

(** The network: [fetch] rejects when no response arrives. *)
Variable fetch : string -> FetchInit -> Promise (FetchResponse.t Obj).

Definition HOST : string :=
  if opt_eqb NODE_ENV (Some "development")
  then "http://localhost:3001"
  else "https://codersquare.xyz".

(** The request [callEndpoint] hands to [fetch]. *)
Definition fetch_init (method : Method.t) (request : Req) : FetchInit :=
  {| init_method := method;
     init_headers :=
       [("Authorization",
         "Bearer " ++ template (prop LOCAL_STORAGE_JWT localStorage));
        ("Content-Type", "application/json")];
     init_body :=
       match method with
       | Method.get => None
       | _ => Some (JSON_stringify request)
       end |}.

(** [msg] at the [throw] of the [finally] block: the body's [error] when
    the body parses to an object that has one, and the initial [''] when
    [response.json()] rejects or [.error] is read off [null].  An [error]
    that is [undefined] gives the error the message ['']. *)
Definition error_message (response : FetchResponse.t Obj) : string :=
  match FetchResponse.json response with
  | Resolved (Some o) =>
      match error_of o with
      | Some e => e
      | None => ""
      end
  | Resolved None => ""
  | Rejected _ => ""
  end.

Definition callEndpoint (url : string) (method : Method.t) (request : Req)
  : Outcome (Data Obj) :=
  match fetch (HOST ++ url) (fetch_init method request) with
  | Rejected reason => Throw (other_error reason)
  | Resolved response =>
      if negb (FetchResponse.ok response)
      then Throw {| ApiError.status := JsNumber (FetchResponse.status response);
                    ApiError.message := error_message response |}
      else
        let isJson :=
          match FetchResponse.content_type response with
          | Some ct => includes ct "application/json"
          | None => false
          end in
        if isJson
        then match FetchResponse.json response with
             | Resolved j => Return (Parsed j)
             | Rejected reason => Throw (other_error reason)
             end
        else Return EmptyObject
  end.

End Client.

(** ** The page of posts *)

(** What [useQuery] hands to [ListPosts]. *)
Record QueryResult (Obj : Type) : Type :=
  { data : option (Data Obj);
    error : option ApiError.t;
    isLoading : bool }.

(** What [ListPosts] renders: a [div] with a text, or a fragment with a
    [PostCard] per entry, each with its [key]; [RenderError] is a render that
    throws. *)
Inductive Rendered : Type :=
| Div (text : string)
| Cards (cards : list (nat * Post.t))
| RenderError.

(** [posts.map((post, i) => ...)], from the index [i]. *)
Fixpoint map_indexed (i : nat) (posts : list Post.t) : list (nat * Post.t) :=
  match posts with
  | [] => []
  | p :: posts' => (i, p) :: map_indexed (S i) posts'
  end.

Section Page.
Variable Obj : Type.

(** The array at the property [posts] of a parsed object, if it has one. *)
Variable posts_of : Obj -> option (list Post.t).

(** The render of [ListPosts] from the result of its query.
    [data?.posts.map(...)] stops at a [data] that is [undefined] or [null]
    and the fragment is empty; on a [data] without [posts] the call of [map]
    throws.  The document title the component sets and the [refetch] it
    hands to each card are no part of what is rendered here. *)
Definition ListPosts (q : QueryResult Obj) : Rendered :=
  if isLoading q then Div "loading..."
  else
    match error q with
    | Some _ => Div "error loading posts"
    | None =>
        match data q with
        | None => Cards []
        | Some (Parsed None) => Cards []
        | Some (Parsed (Some o)) =>
            match posts_of o with
            | Some posts => Cards (map_indexed 0 posts)
            | None => RenderError
            end
        | Some EmptyObject => RenderError
        end
    end.

End Page.

(** The query of [ListPosts]: [callEndpoint(url, method, {})] on the config
    of [listPosts]. *)
Definition listposts_query (NODE_ENV : option string) (localStorage : Fields)
  (Obj : Type) (error_of : Obj -> option string)
  (fetch : string -> FetchInit -> Promise (FetchResponse.t Obj))
  (ENDPOINT_CONFIGS : Endpoints.t -> EndpointConfig)
  : Outcome (Data Obj) :=
  let config := ENDPOINT_CONFIGS Endpoints.listPosts in
  callEndpoint NODE_ENV localStorage error_of (fun _ : unit => "{}") fetch
    (url config) (method config) tt.

(** The query library's result once a query has ended: the data of a call
    that returned, or the error of the last call that threw. *)
Definition settled {Obj : Type} (o : Outcome (Data Obj)) : QueryResult Obj :=
  match o with
  | Return d => {| data := Some d; error := None; isLoading := false |}
  | Throw e => {| data := None; error := Some e; isLoading := false |}
  end.

(** ** Server and client together *)

(** The properties [error] and [posts] of the bodies the handlers send. *)
Definition Body_error (b : Body) : option string :=
  match b with
  | ErrorBody e => Some e
  | _ => None
  end.

Definition Body_posts (b : Body) : option (list Post.t) :=
  match b with
  | PostsBody ps => Some ps
  | _ => None
  end.

(** A response of Express as [fetch] receives it: [res.send] of an object
    travels as JSON, the text of [res.sendStatus] and of the error boundary
    does not, and [ok] is the range 200 to 299. *)
Definition over_the_wire (r : Response) : FetchResponse.t Body :=
  let text :=
    match payload r with
    | StatusText | GenericErrorBody => true
    | _ => false
    end in
  {| FetchResponse.ok := (200 <=? statusCode r) && (statusCode r <=? 299);
     FetchResponse.status := statusCode r;
     FetchResponse.content_type :=
       Some (if text then "text/plain; charset=utf-8"
             else "application/json; charset=utf-8");
     FetchResponse.json :=
       if text then Rejected "Unexpected token in JSON"
       else Resolved (Some (payload r)) |}.

(** ** Sample data of the client *)

(** A network that gives every request the same result. *)
Definition fetch_always (result : Promise (FetchResponse.t Body))
  : string -> FetchInit -> Promise (FetchResponse.t Body) :=
  fun _ _ => result.

(** A gateway's 503 page, a 404 page, and a 200 whose JSON body is cut. *)
Definition response_503 : FetchResponse.t Body :=
  {| FetchResponse.ok := false;
     FetchResponse.status := 503;
     FetchResponse.content_type := Some "text/html";
     FetchResponse.json := Rejected "Unexpected token < in JSON" |}.

Definition response_404 : FetchResponse.t Body :=
  {| FetchResponse.ok := false;
     FetchResponse.status := 404;
     FetchResponse.content_type := Some "text/html";
     FetchResponse.json := Rejected "Unexpected token < in JSON" |}.

Definition response_cut : FetchResponse.t Body :=
  {| FetchResponse.ok := true;
     FetchResponse.status := 200;
     FetchResponse.content_type := Some "application/json; charset=utf-8";
     FetchResponse.json := Rejected "Unexpected end of JSON input" |}.

Definition storage_of_U2 : Fields := [("jwtToken", "token-of-U2")].

Definition stringify_fields (request : Fields) : string :=
  match request with
  | [] => "{}"
  | _ => "{...}"
  end.

(** ** Proof automation *)

(** Runs a handler along every answer the datastore can give. *)
Ltac unfold_handlers :=
  unfold LikeHandler.create, LikeHandler.delete, LikeHandler.list,
    PostHandler.create, PostHandler.delete, PostHandler.get, PostHandler.list,
    bind, await_read, await, detached, ret.

Ltac datastore_cases :=
  repeat (match goal with
          | |- context [truthy ?v] => destruct (truthy v) eqn:?
          | |- context [getPost ?i ?u ?d] =>
              destruct (getPost i u d) as [[?|]|?] eqn:?
          | |- context [exists_ ?l ?d] =>
              destruct (exists_ l d) as [[|]|?] eqn:?
          | |- context [getLikes ?i ?d] => destruct (getLikes i d) eqn:?
          | |- context [listPosts ?u ?d] => destruct (listPosts u d) eqn:?
          | |- context [createPost ?p ?d] =>
              destruct (createPost p d) as [? [[]|?]] eqn:?
          end; cbn).

(** * Properties *)

(** ** JavaScript truth values *)

Lemma falsy_truthy (v : option string) :
  falsy v = true <-> truthy v = None.
Proof.
  unfold falsy; destruct (truthy v); split; congruence.
Qed.

Lemma truthy_Some (v : option string) (s : string) :
  truthy v = Some s <-> v = Some s /\ s <> "".
Proof.
  unfold truthy; destruct v as [x|].
  - destruct (String.eqb_spec x ""); split.
    + discriminate.
    + intros [E N]; inversion E; subst; contradiction.
    + intros E; inversion E; subst; auto.
    + intros [E _]; exact E.
  - split; [discriminate | intros [E _]; discriminate].
Qed.

Lemma falsy_cases (v : option string) :
  falsy v = true <-> v = None \/ v = Some "".
Proof.
  unfold falsy, truthy; destruct v as [x|].
  - destruct (String.eqb_spec x ""); subst; split; auto; try discriminate.
    intros [E|E]; [discriminate | inversion E; contradiction].
  - split; auto.
Qed.

(** ** LikeHandler *)

Section LikeProofs.
Context {DB : Type} {db : Datastore DB}.

Lemma like_create_missing env req locals d :
  truthy (prop "postId" (params req)) = None ->
  LikeHandler.create env req locals d
  = (d, Returned (status_send 400 (ErrorBody "Post ID missing"))).
Proof.
  intros E; unfold LikeHandler.create; rewrite E; reflexivity.
Qed.

Lemma like_create_no_post env req locals d postId :
  truthy (prop "postId" (params req)) = Some postId ->
  getPost postId None d = Resolved None ->
  LikeHandler.create env req locals d
  = (d, Returned (status_send 404 (ErrorBody "No post found with this ID"))).
Proof.
  intros E G; unfold LikeHandler.create, bind, await_read.
  rewrite E, G; reflexivity.
Qed.

Lemma like_create_duplicate env req locals d postId p :
  truthy (prop "postId" (params req)) = Some postId ->
  getPost postId None d = Resolved (Some p) ->
  exists_ {| Like.postId := postId; Like.userId := userId locals |} d
  = Resolved true ->
  LikeHandler.create env req locals d
  = (d, Returned (status_send 400
                    (ErrorBody "No more likes for same post, same userid"))).
Proof.
  intros E G X; unfold LikeHandler.create, bind, await_read.
  rewrite E, G, X; reflexivity.
Qed.

Lemma like_create_fresh env req locals d postId p :
  truthy (prop "postId" (params req)) = Some postId ->
  getPost postId None d = Resolved (Some p) ->
  exists_ {| Like.postId := postId; Like.userId := userId locals |} d
  = Resolved false ->
  LikeHandler.create env req locals d
  = (fst (createLike
            {| Like.postId := postId; Like.userId := userId locals |} d),
     Returned (sendStatus 200)).
Proof.
  intros E G X; unfold LikeHandler.create, bind, await_read, detached.
  rewrite E, G, X; reflexivity.
Qed.

Lemma like_delete_missing env req locals d :
  truthy (prop "postId" (params req)) = None ->
  LikeHandler.delete env req locals d
  = (d, Returned (status_send 400 (ErrorBody "Post ID missing"))).
Proof.
  intros E; unfold LikeHandler.delete; rewrite E; reflexivity.
Qed.

Lemma like_delete_no_post env req locals d postId :
  truthy (prop "postId" (params req)) = Some postId ->
  getPost postId None d = Resolved None ->
  LikeHandler.delete env req locals d
  = (d, Returned (status_send 404 (ErrorBody "No post found with this ID"))).
Proof.
  intros E G; unfold LikeHandler.delete, bind, await_read.
  rewrite E, G; reflexivity.
Qed.

Lemma like_delete_post env req locals d postId p :
  truthy (prop "postId" (params req)) = Some postId ->
  getPost postId None d = Resolved (Some p) ->
  LikeHandler.delete env req locals d
  = (fst (deleteLike
            {| Like.postId := postId; Like.userId := userId locals |} d),
     Returned (sendStatus 200)).
Proof.
  intros E G; unfold LikeHandler.delete, bind, await_read, detached.
  rewrite E, G; reflexivity.
Qed.

End LikeProofs.

(** C1. Like create: a missing [postId] is answered 400; otherwise a post
    that does not exist is answered 404; otherwise a Like that already
    exists for [(postId, res.locals.userId)] is answered 400 with the
    duplicate-like error; otherwise [createLike] is called on
    [{postId, userId}] and the answer is the bare status 200. *)
Theorem like_create_contract {DB : Type} {db : Datastore DB}
  (env : Env) (req : Request) (locals : Locals) (d : DB) :
  (falsy (prop "postId" (params req)) = true ->
   LikeHandler.create env req locals d
   = (d, Returned (status_send 400 (ErrorBody "Post ID missing"))))
  /\
  (forall postId,
     truthy (prop "postId" (params req)) = Some postId ->
     (getPost postId None d = Resolved None ->
      LikeHandler.create env req locals d
      = (d, Returned (status_send 404
                        (ErrorBody "No post found with this ID"))))
     /\
     (forall p,
        getPost postId None d = Resolved (Some p) ->
        (exists_ {| Like.postId := postId; Like.userId := userId locals |} d
         = Resolved true ->
         LikeHandler.create env req locals d
         = (d, Returned
                 (status_send 400
                    (ErrorBody "No more likes for same post, same userid"))))
        /\
        (exists_ {| Like.postId := postId; Like.userId := userId locals |} d
         = Resolved false ->
         LikeHandler.create env req locals d
         = (fst (createLike
                   {| Like.postId := postId; Like.userId := userId locals |}
                   d),
            Returned (sendStatus 200))))).
Proof.
  split.
  - intros F. apply like_create_missing. now apply falsy_truthy.
  - intros postId E. split.
    + now apply like_create_no_post.
    + intros p G. split; intros X.
      * now apply like_create_duplicate with (postId := postId) (p := p).
      * now apply like_create_fresh with (p := p).
Qed.

(** The four branches of create on the in-memory datastore. *)
Lemma like_create_contract_witness :
  LikeHandler.create env0 req_none as_U2 db_post
  = (db_post, Returned (status_send 400 (ErrorBody "Post ID missing")))
  /\ LikeHandler.create env0 (req_params "postId" "p9") as_U2 db_post
     = (db_post,
        Returned (status_send 404 (ErrorBody "No post found with this ID")))
  /\ LikeHandler.create env0 (req_params "postId" "p1") as_U2 db_liked
     = (db_liked,
        Returned (status_send 400
                    (ErrorBody "No more likes for same post, same userid")))
  /\ LikeHandler.create env0 (req_params "postId" "p1") as_U2 db_post
     = (db_liked, Returned (sendStatus 200)).
Proof.
  pose proof (like_create_contract (db := MemDb_Datastore)) as C.
  split; [|split; [|split]].
  - apply (proj1 (C env0 req_none as_U2 db_post)).
    reflexivity.
  - apply (proj1 (proj2 (C env0 (req_params "postId" "p9") as_U2 db_post)
                    "p9" eq_refl)).
    reflexivity.
  - apply (proj1 (proj2 (proj2 (C env0 (req_params "postId" "p1")
                                  as_U2 db_liked) "p1" eq_refl)
                    post1 eq_refl)).
    reflexivity.
  - apply (proj2 (proj2 (proj2 (C env0 (req_params "postId" "p1")
                                  as_U2 db_post) "p1" eq_refl)
                    post1 eq_refl)).
    reflexivity.
Defined.

(** ** The in-memory datastore is a datastore that is up *)

Lemma opt_eqb_refl (a : option string) : opt_eqb a a = true.
Proof. destruct a; simpl; auto using String.eqb_refl. Qed.

Lemma like_eqb_refl (l : Like.t) : like_eqb l l = true.
Proof.
  unfold like_eqb; now rewrite String.eqb_refl, opt_eqb_refl.
Qed.

Lemma existsb_filter_negb {A : Type} (f : A -> bool) (xs : list A) :
  existsb f (filter (fun x => negb (f x)) xs) = false.
Proof.
  induction xs as [|x xs IH]; simpl; auto.
  destruct (f x) eqn:E; simpl; auto.
  now rewrite E.
Qed.

Lemma find_none_existsb {A : Type} (f : A -> bool) (xs : list A) :
  find f xs = None -> existsb f xs = false.
Proof.
  induction xs as [|x xs IH]; simpl; auto.
  destruct (f x); [discriminate | auto].
Qed.

Lemma find_none_app {A : Type} (f : A -> bool) (xs : list A) (y : A) :
  find f xs = None -> f y = true -> find f (xs ++ [y]) = Some y.
Proof.
  induction xs as [|x xs IH]; simpl; intros N Y.
  - now rewrite Y.
  - destruct (f x); [discriminate | auto].
Qed.

Lemma MemDb_Laws : DatastoreLaws MemDb.
Proof.
  split; simpl.
  - intros l d. rewrite existsb_app; simpl.
    now rewrite like_eqb_refl, orb_true_r.
  - reflexivity.
  - intros l d. now rewrite existsb_filter_negb.
  - reflexivity.
  - intros p u d G. injection G as G.
    rewrite (find_none_existsb _ _ G); simpl. split; [reflexivity|].
    f_equal. apply find_none_app; [exact G|].
    unfold has_id. apply String.eqb_refl.
Qed.
#[export] Existing Instance MemDb_Laws.

(** C2. Like create twice in sequence.  On a datastore that is up, for a
    post that exists and a pair [(postId, userId)] with no Like: the first
    create answers the bare status 200 and stores the Like; the second, on
    the datastore the first one left, is refused as a duplicate: it answers
    with the error for a Like that is already there, which the spec's
    taxonomy names Conflict and which the handler sends under status 400,
    and it stores nothing. *)
Theorem like_create_twice {DB : Type} {db : Datastore DB}
  {laws : DatastoreLaws DB}
  (env : Env) (req : Request) (locals : Locals) (d : DB)
  (postId : string) (p : Post.t) :
  truthy (prop "postId" (params req)) = Some postId ->
  getPost postId None d = Resolved (Some p) ->
  exists_ {| Like.postId := postId; Like.userId := userId locals |} d
  = Resolved false ->
  let d1 :=
    fst (createLike {| Like.postId := postId; Like.userId := userId locals |}
           d) in
  LikeHandler.create env req locals d = (d1, Returned (sendStatus 200))
  /\ LikeHandler.create env req locals d1
     = (d1,
        Returned (status_send 400
                    (ErrorBody "No more likes for same post, same userid"))).
Proof.
  intros E G X d1. split.
  - now apply like_create_fresh with (p := p).
  - apply like_create_duplicate with (postId := postId) (p := p); auto.
    + unfold d1. now rewrite getPost_createLike.
    + unfold d1. apply exists_createLike.
Qed.

(** U2 likes the post [p1] twice. *)
Lemma like_create_twice_witness :
  LikeHandler.create env0 (req_params "postId" "p1") as_U2 db_post
  = (db_liked, Returned (sendStatus 200))
  /\ LikeHandler.create env0 (req_params "postId" "p1") as_U2 db_liked
     = (db_liked,
        Returned (status_send 400
                    (ErrorBody "No more likes for same post, same userid"))).
Proof.
  exact (like_create_twice (db := MemDb_Datastore) env0
           (req_params "postId" "p1") as_U2 db_post (p := post1)
           eq_refl eq_refl eq_refl).
Defined.

(** C3. Like delete: a missing [postId] is answered 400 and a post that does
    not exist 404.  For a post that exists, on a datastore that is up,
    delete answers the bare status 200 whether or not the Like is there, the
    pair is absent afterwards, and a second delete answers 200 again. *)
Theorem like_delete_idempotent {DB : Type} {db : Datastore DB}
  {laws : DatastoreLaws DB}
  (env : Env) (req : Request) (locals : Locals) (d : DB) :
  (falsy (prop "postId" (params req)) = true ->
   LikeHandler.delete env req locals d
   = (d, Returned (status_send 400 (ErrorBody "Post ID missing"))))
  /\
  (forall postId,
     truthy (prop "postId" (params req)) = Some postId ->
     (getPost postId None d = Resolved None ->
      LikeHandler.delete env req locals d
      = (d, Returned (status_send 404
                        (ErrorBody "No post found with this ID"))))
     /\
     (forall p,
        getPost postId None d = Resolved (Some p) ->
        let like := {| Like.postId := postId; Like.userId := userId locals |} in
        let d1 := fst (deleteLike like d) in
        let d2 := fst (deleteLike like d1) in
        LikeHandler.delete env req locals d = (d1, Returned (sendStatus 200))
        /\ exists_ like d1 = Resolved false
        /\ LikeHandler.delete env req locals d1
           = (d2, Returned (sendStatus 200))
        /\ exists_ like d2 = Resolved false)).
Proof.
  split.
  - intros F. apply like_delete_missing. now apply falsy_truthy.
  - intros postId E. split.
    + now apply like_delete_no_post.
    + intros p G like d1 d2. split; [|split; [|split]].
      * now apply like_delete_post with (p := p).
      * apply exists_deleteLike.
      * apply like_delete_post with (p := p); auto.
        unfold d1. now rewrite getPost_deleteLike.
      * apply exists_deleteLike.
Qed.

(** U2 takes the like of [p1] back twice; no [postId]; no such post. *)
Lemma like_delete_idempotent_witness :
  LikeHandler.delete env0 (req_params "postId" "p1") as_U2 db_liked
  = (db_post, Returned (sendStatus 200))
  /\ exists_ {| Like.postId := "p1"; Like.userId := Some "U2" |} db_post
     = Resolved false
  /\ LikeHandler.delete env0 (req_params "postId" "p1") as_U2 db_post
     = (db_post, Returned (sendStatus 200))
  /\ LikeHandler.delete env0 req_none as_U2 db_liked
     = (db_liked, Returned (status_send 400 (ErrorBody "Post ID missing")))
  /\ LikeHandler.delete env0 (req_params "postId" "p9") as_U2 db_liked
     = (db_liked,
        Returned (status_send 404 (ErrorBody "No post found with this ID"))).
Proof.
  pose proof (like_delete_idempotent (db := MemDb_Datastore)) as C.
  pose proof (proj2 (proj2 (C env0 (req_params "postId" "p1") as_U2 db_liked)
                       "p1" eq_refl) post1 eq_refl) as T.
  split; [exact (proj1 T)|].
  split; [exact (proj1 (proj2 T))|].
  split; [exact (proj1 (proj2 (proj2 T)))|].
  split.
  - apply (proj1 (C env0 req_none as_U2 db_liked)). reflexivity.
  - apply (proj1 (proj2 (C env0 (req_params "postId" "p9") as_U2 db_liked)
                    "p9" eq_refl)).
    reflexivity.
Defined.

(** ** PostHandler *)

Section PostProofs.
Context {DB : Type} {db : Datastore DB}.

Lemma post_create_invalid env req locals d :
  truthy (prop "title" (body req)) = None
  \/ truthy (prop "url" (body req)) = None ->
  PostHandler.create env req locals d = (d, Returned (sendStatus 400)).
Proof.
  unfold PostHandler.create.
  intros [E|E]; rewrite E; [|destruct (truthy (prop "title" (body req)))];
    reflexivity.
Qed.

Lemma post_create_valid env req locals d title url :
  truthy (prop "title" (body req)) = Some title ->
  truthy (prop "url" (body req)) = Some url ->
  PostHandler.create env req locals d
  = let post :=
      {| Post.id := randomUUID env; Post.postedAt := now env;
         Post.title := title; Post.url := url;
         Post.userId := userId locals |} in
    (fst (createPost post d),
     match snd (createPost post d) with
     | Resolved _ => Returned (sendStatus 200)
     | Rejected e => Thrown e
     end).
Proof.
  intros T U; unfold PostHandler.create, bind, await, ret.
  rewrite T, U; simpl.
  destruct (createPost _ d) as [d' [[]|e]]; reflexivity.
Qed.

Lemma post_delete_missing env req locals d :
  truthy (prop "postId" (body req)) = None ->
  PostHandler.delete env req locals d = (d, Returned (sendStatus 400)).
Proof.
  intros E; unfold PostHandler.delete; rewrite E; reflexivity.
Qed.

Lemma post_delete_present env req locals d postId :
  truthy (prop "postId" (body req)) = Some postId ->
  PostHandler.delete env req locals d
  = (fst (deletePost postId d), Returned (sendStatus 200)).
Proof.
  intros E; unfold PostHandler.delete, bind, detached; rewrite E; reflexivity.
Qed.

Lemma post_get_missing env req locals d :
  truthy (prop "id" (params req)) = None ->
  PostHandler.get env req locals d = (d, Returned (sendStatus 400)).
Proof.
  intros E; unfold PostHandler.get; rewrite E; reflexivity.
Qed.

Lemma post_get_absent env req locals d id :
  truthy (prop "id" (params req)) = Some id ->
  getPost id (userId locals) d = Resolved None ->
  PostHandler.get env req locals d = (d, Returned (sendStatus 404)).
Proof.
  intros E G; unfold PostHandler.get, bind, await_read.
  rewrite E, G; reflexivity.
Qed.

Lemma post_get_stored env req locals d id p :
  truthy (prop "id" (params req)) = Some id ->
  getPost id (userId locals) d = Resolved (Some p) ->
  PostHandler.get env req locals d = (d, Returned (send (PostBody p))).
Proof.
  intros E G; unfold PostHandler.get, bind, await_read.
  rewrite E, G; reflexivity.
Qed.

End PostProofs.

(** C6. Post create with a [title] or a [url] that is missing or empty is
    answered 400, and the datastore is left as it was. *)
Theorem post_create_rejects_empty {DB : Type} {db : Datastore DB}
  (env : Env) (req : Request) (locals : Locals) (d : DB) :
  falsy (prop "title" (body req)) = true
  \/ falsy (prop "url" (body req)) = true ->
  PostHandler.create env req locals d = (d, Returned (sendStatus 400))
  /\ error_class (sendStatus 400) = Some BadRequest.
Proof.
  intros H. split; [|reflexivity].
  apply post_create_invalid.
  destruct H as [H|H]; [left|right]; now apply falsy_truthy.
Qed.

(** A body without [title], and a body whose [url] is empty. *)
Lemma post_create_rejects_empty_witness :
  (PostHandler.create env0 (req_body [("url", "http://x")]) as_U1 db_post
   = (db_post, Returned (sendStatus 400))
   /\ error_class (sendStatus 400) = Some BadRequest)
  /\ (PostHandler.create env0 (req_body [("title", "Hi"); ("url", "")])
        as_U1 db_post
      = (db_post, Returned (sendStatus 400))
      /\ error_class (sendStatus 400) = Some BadRequest).
Proof.
  split.
  - apply (post_create_rejects_empty (db := MemDb_Datastore) env0
             (req_body [("url", "http://x")]) as_U1 db_post).
    left; reflexivity.
  - apply (post_create_rejects_empty (db := MemDb_Datastore) env0
             (req_body [("title", "Hi"); ("url", "")]) as_U1 db_post).
    right; reflexivity.
Defined.

(** C8. Post get: a missing [id] is answered 400; otherwise the datastore is
    asked for the post with the caller's [res.locals.userId]; no post is
    answered 404, and a post is answered 200 with the post as stored. *)
Theorem post_get_contract {DB : Type} {db : Datastore DB}
  (env : Env) (req : Request) (locals : Locals) (d : DB) :
  (falsy (prop "id" (params req)) = true ->
   PostHandler.get env req locals d = (d, Returned (sendStatus 400)))
  /\
  (forall id,
     truthy (prop "id" (params req)) = Some id ->
     (getPost id (userId locals) d = Resolved None ->
      PostHandler.get env req locals d = (d, Returned (sendStatus 404)))
     /\
     (forall p,
        getPost id (userId locals) d = Resolved (Some p) ->
        PostHandler.get env req locals d = (d, Returned (send (PostBody p)))
        /\ statusCode (send (PostBody p)) = 200)).
Proof.
  split.
  - intros F. apply post_get_missing. now apply falsy_truthy.
  - intros id E. split.
    + now apply post_get_absent.
    + intros p G. split; [|reflexivity].
      now apply post_get_stored with (id := id).
Qed.

(** The three branches of get on the in-memory datastore. *)
Lemma post_get_contract_witness :
  PostHandler.get env0 req_none as_U2 db_post
  = (db_post, Returned (sendStatus 400))
  /\ PostHandler.get env0 (req_params "id" "p9") as_U2 db_post
     = (db_post, Returned (sendStatus 404))
  /\ PostHandler.get env0 (req_params "id" "p1") as_U2 db_post
     = (db_post, Returned (send (PostBody post1))).
Proof.
  pose proof (post_get_contract (db := MemDb_Datastore)) as C.
  split; [|split].
  - apply (proj1 (C env0 req_none as_U2 db_post)). reflexivity.
  - apply (proj1 (proj2 (C env0 (req_params "id" "p9") as_U2 db_post)
                    "p9" eq_refl)).
    reflexivity.
  - apply (proj2 (proj2 (C env0 (req_params "id" "p1") as_U2 db_post)
                    "p1" eq_refl) post1 eq_refl).
Defined.

(** C9. Post delete answers 400 exactly when [postId] is missing (absent or
    empty); otherwise it calls [deletePost] on that id and answers the bare
    status 200, whoever the caller is: [res.locals.userId] is not read. *)
Theorem post_delete_unconditional {DB : Type} {db : Datastore DB}
  (env : Env) (req : Request) (locals : Locals) (d : DB) :
  (snd (PostHandler.delete env req locals d) = Returned (sendStatus 400)
   <-> falsy (prop "postId" (body req)) = true)
  /\
  (forall postId,
     truthy (prop "postId" (body req)) = Some postId ->
     PostHandler.delete env req locals d
     = (fst (deletePost postId d), Returned (sendStatus 200)))
  /\
  (forall locals',
     PostHandler.delete env req locals' d
     = PostHandler.delete env req locals d).
Proof.
  split; [|split].
  - split.
    + intros R. apply falsy_truthy.
      destruct (truthy (prop "postId" (body req))) as [postId|] eqn:E; auto.
      rewrite (post_delete_present env req locals d E) in R. discriminate.
    + intros F. apply falsy_truthy in F.
      now rewrite (post_delete_missing env req locals d F).
  - intros postId E. now apply post_delete_present.
  - intros locals'. reflexivity.
Qed.

(** U2 deletes the post of U1; a body without [postId]. *)
Lemma post_delete_unconditional_witness :
  PostHandler.delete env0 (req_body [("postId", "p1")]) as_U2 db_post
  = (db_empty, Returned (sendStatus 200))
  /\ Post.userId post1 <> userId as_U2
  /\ snd (PostHandler.delete env0 req_none as_U1 db_post)
     = Returned (sendStatus 400).
Proof.
  pose proof (post_delete_unconditional (db := MemDb_Datastore)) as C.
  split; [|split].
  - apply (proj1 (proj2 (C env0 (req_body [("postId", "p1")]) as_U2 db_post))
             "p1" eq_refl).
  - discriminate.
  - apply (proj1 (C env0 req_none as_U1 db_post)). reflexivity.
Defined.

(** ** Route registration *)

Lemma all_endpoints (entry : Endpoints.t) : In entry Object_keys_Endpoints.
Proof.
  destruct entry; unfold Object_keys_Endpoints; simpl; tauto.
Qed.

Section ServerProofs.
Context {DB : Type} {db : Datastore DB}.
Variable ENDPOINT_CONFIGS : Endpoints.t -> EndpointConfig.
Variable userHandler : UserHandler.t DB.
Variable commentHandler : CommentHandler.t DB.
Variable resolveCredential : Fields -> option string.

Abbreviation handlers := (HANDLERS userHandler commentHandler).
Abbreviation route := (register ENDPOINT_CONFIGS userHandler commentHandler).
Abbreviation served :=
  (serve ENDPOINT_CONFIGS userHandler commentHandler resolveCredential).

Lemma chain_gated entry :
  flag (auth (ENDPOINT_CONFIGS entry)) = true ->
  chain (route entry)
  = [jwtParseMiddleware; enforceJwtMiddleware; asyncHandler (handlers entry)].
Proof.
  intros A; unfold register; rewrite A; reflexivity.
Qed.

Lemma chain_open entry :
  flag (auth (ENDPOINT_CONFIGS entry)) = false ->
  chain (route entry) = [jwtParseMiddleware; asyncHandler (handlers entry)].
Proof.
  intros A; unfold register; rewrite A; reflexivity.
Qed.

Lemma served_gated_anonymous entry env req d :
  flag (auth (ENDPOINT_CONFIGS entry)) = true ->
  resolveCredential (headers req) = None ->
  served entry env req d = (d, sendStatus 401).
Proof.
  intros A N; unfold serve.
  rewrite (chain_gated entry A); simpl. now rewrite N.
Qed.

Lemma served_gated_identified entry env req d u :
  flag (auth (ENDPOINT_CONFIGS entry)) = true ->
  resolveCredential (headers req) = Some u ->
  served entry env req d
  = respond (handlers entry) env req {| userId := Some u |} d.
Proof.
  intros A N; unfold serve, respond.
  rewrite (chain_gated entry A); simpl. rewrite N; simpl.
  destruct (handlers entry env req _ d) as [d' [r|e]]; reflexivity.
Qed.

Lemma served_open entry env req d :
  flag (auth (ENDPOINT_CONFIGS entry)) = false ->
  served entry env req d
  = respond (handlers entry) env req
      {| userId := resolveCredential (headers req) |} d.
Proof.
  intros A; unfold serve, respond.
  rewrite (chain_open entry A); simpl.
  destruct (resolveCredential (headers req)) as [u|];
    destruct (handlers entry env req _ d) as [d' [r|e]]; reflexivity.
Qed.

End ServerProofs.

(** C4. Every endpoint is registered under the method and url of its
    config, with a chain that begins with the parse stage and holds the
    enforce stage exactly when the config's [auth] is set: [parse, enforce,
    handler] for a gated endpoint and [parse, handler] otherwise.  On a gated
    endpoint a request for which parse resolves no identity is answered 401
    and the handler does not run; with an identity, and on an endpoint that
    is not gated, the handler runs on what parse left in [res.locals]. *)
Theorem gate_composition {DB : Type} {db : Datastore DB}
  (ENDPOINT_CONFIGS : Endpoints.t -> EndpointConfig)
  (userHandler : UserHandler.t DB) (commentHandler : CommentHandler.t DB)
  (resolveCredential : Fields -> option string)
  (entry : Endpoints.t) :
  let config := ENDPOINT_CONFIGS entry in
  let handler := HANDLERS userHandler commentHandler entry in
  let route := register ENDPOINT_CONFIGS userHandler commentHandler entry in
  let served :=
    serve ENDPOINT_CONFIGS userHandler commentHandler resolveCredential entry in
  In route (routes ENDPOINT_CONFIGS userHandler commentHandler)
  /\ route_method route = method config
  /\ route_url route = url config
  /\ (exists rest, chain route = jwtParseMiddleware :: rest)
  /\ (In enforceJwtMiddleware (chain route) <-> flag (auth config) = true)
  /\ chain route
     = (if flag (auth config)
        then [jwtParseMiddleware; enforceJwtMiddleware; asyncHandler handler]
        else [jwtParseMiddleware; asyncHandler handler])
  /\ (forall env req d,
        flag (auth config) = true ->
        resolveCredential (headers req) = None ->
        served env req d = (d, sendStatus 401)
        /\ error_class (sendStatus 401) = Some Unauthorized)
  /\ (forall env req d u,
        flag (auth config) = true ->
        resolveCredential (headers req) = Some u ->
        served env req d = respond handler env req {| userId := Some u |} d)
  /\ (forall env req d,
        flag (auth config) = false ->
        served env req d
        = respond handler env req
            {| userId := resolveCredential (headers req) |} d).
Proof.
  intros config handler route served.
  assert (C : chain route
              = if flag (auth config)
                then [jwtParseMiddleware; enforceJwtMiddleware;
                      asyncHandler handler]
                else [jwtParseMiddleware; asyncHandler handler]).
  { unfold route, register; fold config; fold handler.
    destruct (flag (auth config)); reflexivity. }
  split; [|split; [|split; [|split; [|split; [|split; [|split; [|split]]]]]]].
  - unfold routes. apply in_map. apply all_endpoints.
  - unfold route, register; fold config.
    destruct (flag (auth config)); reflexivity.
  - unfold route, register; fold config.
    destruct (flag (auth config)); reflexivity.
  - rewrite C. destruct (flag (auth config)); eexists; reflexivity.
  - rewrite C. destruct (flag (auth config)); simpl; split; auto.
    + intros [E|[E|[]]]; discriminate.
    + discriminate.
  - exact C.
  - intros env req d A N. split; [|reflexivity].
    now apply served_gated_anonymous.
  - intros env req d u A N. now apply served_gated_identified.
  - intros env req d A. now apply served_open.
Qed.

(** The chains of a gated and of an open endpoint under the sample table,
    and the three ways through them. *)
Lemma gate_composition_witness :
  chain (register sample_configs sample_users sample_comments
           Endpoints.createLike)
  = [jwtParseMiddleware; enforceJwtMiddleware;
     asyncHandler LikeHandler.create]
  /\ chain (register sample_configs sample_users sample_comments
              Endpoints.getPost)
     = [jwtParseMiddleware; asyncHandler PostHandler.get]
  /\ serve sample_configs sample_users sample_comments sample_credentials
       Endpoints.createLike env0 (req_params "postId" "p1") db_post
     = (db_post, sendStatus 401)
  /\ serve sample_configs sample_users sample_comments sample_credentials
       Endpoints.createLike env0
       (req_signed "postId" "p1" "Bearer token-of-U2") db_post
     = (db_liked, sendStatus 200)
  /\ serve sample_configs sample_users sample_comments sample_credentials
       Endpoints.getPost env0 (req_params "id" "p1") db_post
     = (db_post, send (PostBody post1)).
Proof.
  pose proof (gate_composition (db := MemDb_Datastore) sample_configs
                sample_users sample_comments sample_credentials) as G.
  destruct (G Endpoints.createLike)
    as (_ & _ & _ & _ & _ & CL & AL & IL & _).
  destruct (G Endpoints.getPost)
    as (_ & _ & _ & _ & _ & CG & _ & _ & OG).
  split; [exact CL|].
  split; [exact CG|].
  split; [|split].
  - apply AL; reflexivity.
  - rewrite (IL env0 (req_signed "postId" "p1" "Bearer token-of-U2") db_post
               "U2" eq_refl eq_refl).
    reflexivity.
  - rewrite (OG env0 (req_params "id" "p1") db_post eq_refl). reflexivity.
Defined.

(** ** Failures of the datastore *)

Section FailureProofs.
Context {DB : Type} {db : Datastore DB}.

(** A rejection the handler waits for reaches the error boundary. *)
Lemma like_create_getPost_rejected env req locals d postId e :
  truthy (prop "postId" (params req)) = Some postId ->
  getPost postId None d = Rejected e ->
  respond LikeHandler.create env req locals d
  = (d, status_send 500 GenericErrorBody).
Proof.
  intros E G; unfold respond, LikeHandler.create, bind, await_read.
  rewrite E, G; reflexivity.
Qed.

Lemma post_create_createPost_rejected env req locals d title url e :
  truthy (prop "title" (body req)) = Some title ->
  truthy (prop "url" (body req)) = Some url ->
  snd (createPost
         {| Post.id := randomUUID env; Post.postedAt := now env;
            Post.title := title; Post.url := url;
            Post.userId := userId locals |} d) = Rejected e ->
  statusCode (snd (respond PostHandler.create env req locals d)) = 500.
Proof.
  intros T U R; unfold respond.
  rewrite (post_create_valid env req locals d T U); cbv zeta.
  now rewrite R.
Qed.

(** A rejection of a call the handler does not wait for changes nothing in
    the answer. *)
Lemma like_create_createLike_unobserved env req locals d postId p :
  truthy (prop "postId" (params req)) = Some postId ->
  getPost postId None d = Resolved (Some p) ->
  exists_ {| Like.postId := postId; Like.userId := userId locals |} d
  = Resolved false ->
  snd (respond LikeHandler.create env req locals d) = sendStatus 200.
Proof.
  intros E G X; unfold respond.
  now rewrite (like_create_fresh env req locals d E G X).
Qed.

Lemma like_delete_deleteLike_unobserved env req locals d postId p :
  truthy (prop "postId" (params req)) = Some postId ->
  getPost postId None d = Resolved (Some p) ->
  snd (respond LikeHandler.delete env req locals d) = sendStatus 200.
Proof.
  intros E G; unfold respond.
  now rewrite (like_delete_post env req locals d E G).
Qed.

Lemma post_delete_deletePost_unobserved env req locals d postId :
  truthy (prop "postId" (body req)) = Some postId ->
  snd (respond PostHandler.delete env req locals d) = sendStatus 200.
Proof.
  intros E; unfold respond.
  now rewrite (post_delete_present env req locals d E).
Qed.

End FailureProofs.

(** C5, at the failing inputs.  With a datastore whose writes are rejected,
    [createLike], [deleteLike] and [deletePost] are rejected and the request
    is still answered 200, where the claim has a 500; the rejected
    [createPost], which [PostHandler.create] waits for, is answered 500. *)
Theorem dropped_rejection_answers_200 :
  (snd (@createLike _ Unavailable_Datastore
          {| Like.postId := "p1"; Like.userId := Some "U2" |} db_post)
   = Rejected "datastore unavailable"
   /\ respond (@LikeHandler.create _ Unavailable_Datastore) env0
        (req_params "postId" "p1") as_U2 db_post
      = (db_post, sendStatus 200))
  /\
  (snd (@deleteLike _ Unavailable_Datastore
          {| Like.postId := "p1"; Like.userId := Some "U2" |} db_liked)
   = Rejected "datastore unavailable"
   /\ respond (@LikeHandler.delete _ Unavailable_Datastore) env0
        (req_params "postId" "p1") as_U2 db_liked
      = (db_liked, sendStatus 200))
  /\
  (snd (@deletePost _ Unavailable_Datastore "p1" db_post)
   = Rejected "datastore unavailable"
   /\ respond (@PostHandler.delete _ Unavailable_Datastore) env0
        (req_body [("postId", "p1")]) as_U1 db_post
      = (db_post, sendStatus 200))
  /\
  respond (@PostHandler.create _ Unavailable_Datastore) env0
    (req_body [("title", "Hi"); ("url", "http://x")]) as_U1 db_post
  = (db_post, status_send 500 GenericErrorBody).
Proof.
  repeat split.
Qed.

(** ** The retry policy *)

Lemma typeof_number (v : JsValue) :
  typeof v = "number" <-> exists n, v = JsNumber n.
Proof.
  destruct v; simpl; split; try discriminate; eauto;
    intros [m E]; discriminate.
Qed.

Lemma retry_number (failureCount n : Z) (msg : string) :
  retry failureCount
    {| ApiError.status := JsNumber n; ApiError.message := msg |}
  = (500 <=? n) && (failureCount <? 2).
Proof. reflexivity. Qed.

Lemma retry_not_number (failureCount : Z) (error : ApiError.t) :
  typeof (ApiError.status error) <> "number" -> retry failureCount error = true.
Proof.
  intros N; unfold retry.
  destruct (String.eqb_spec (typeof (ApiError.status error)) "number");
    [contradiction | reflexivity].
Qed.

Lemma retry_status_number (failureCount n : Z) (error : ApiError.t) :
  ApiError.status error = JsNumber n ->
  retry failureCount error = (500 <=? n) && (failureCount <? 2).
Proof.
  intros St; unfold retry; rewrite St; reflexivity.
Qed.

Lemma refetches_server_error (fuel : nat) (failureCount n : Z)
  (error : ApiError.t) :
  ApiError.status error = JsNumber n -> 500 <= n -> 0 <= failureCount ->
  refetches fuel failureCount error
  = Nat.min fuel (Z.to_nat (2 - failureCount)).
Proof.
  intros St H. revert failureCount.
  induction fuel as [|fuel IH]; intros failureCount P; [reflexivity|].
  cbn [refetches]. rewrite (retry_status_number failureCount error St).
  destruct (Z.leb_spec 500 n); [|lia]. cbn [andb].
  destruct (Z.ltb_spec failureCount 2).
  - rewrite IH by lia.
    replace (Z.to_nat (2 - failureCount))
      with (S (Z.to_nat (2 - (failureCount + 1)))) by lia.
    reflexivity.
  - replace (Z.to_nat (2 - failureCount)) with O by lia.
    now rewrite Nat.min_0_r.
Qed.

Lemma refetches_not_number (fuel : nat) (failureCount : Z)
  (error : ApiError.t) :
  typeof (ApiError.status error) <> "number" ->
  refetches fuel failureCount error = fuel.
Proof.
  intros N. revert failureCount.
  induction fuel as [|fuel IH]; intros failureCount; [reflexivity|].
  cbn [refetches]. rewrite (retry_not_number failureCount error N).
  now rewrite IH.
Qed.

(** C10. [retry] answers true exactly when the error's [status] is not a
    number, or it is a number of at least 500 and fewer than 2 failures came
    before.  So a 4xx is never run again, whatever the count, and a query
    that keeps failing with a 5xx is run again twice and no more. *)
Theorem retry_policy (failureCount : Z) (error : ApiError.t) :
  (retry failureCount error = true <->
   typeof (ApiError.status error) <> "number"
   \/ exists n,
        ApiError.status error = JsNumber n /\ 500 <= n /\ failureCount < 2)
  /\
  (forall n,
     ApiError.status error = JsNumber n -> 400 <= n < 500 ->
     retry failureCount error = false
     /\ forall fuel, refetches fuel failureCount error = O)
  /\
  (forall n fuel,
     ApiError.status error = JsNumber n -> 500 <= n ->
     refetches fuel 0 error = Nat.min fuel 2).
Proof.
  split; [|split].
  - destruct error as [st msg]; simpl. destruct st as [|n|s|].
    1, 3, 4: split; [intros _; left; discriminate | reflexivity].
    rewrite retry_number, andb_true_iff, Z.leb_le, Z.ltb_lt. split.
    + intros [H1 H2]. right. exists n. auto.
    + intros [N|[m [E [H1 H2]]]].
      * now contradiction N.
      * inversion E; subst. auto.
  - intros n St H.
    assert (R : forall c, retry c error = false).
    { intros c. rewrite (retry_status_number c error St).
      destruct (Z.leb_spec 500 n); [lia | reflexivity]. }
    split; [apply R|].
    intros [|fuel]; simpl; [reflexivity | now rewrite R].
  - intros n fuel St H.
    now rewrite (refetches_server_error fuel (failureCount := 0) error St H).
Qed.

(** A 503 before and after two failures, a 404, and a thrown value with no
    [status]. *)
Lemma retry_policy_witness :
  retry 0 {| ApiError.status := JsNumber 503; ApiError.message := "" |} = true
  /\ retry 2 {| ApiError.status := JsNumber 503; ApiError.message := "" |}
     = false
  /\ retry 0 {| ApiError.status := JsNumber 404; ApiError.message := "" |}
     = false
  /\ refetches 10 0
       {| ApiError.status := JsNumber 503; ApiError.message := "" |}
     = 2%nat
  /\ retry 7 {| ApiError.status := JsUndefined; ApiError.message := "" |}
     = true.
Proof.
  split; [|split; [|split; [|split]]].
  - apply (proj1 (retry_policy 0
             {| ApiError.status := JsNumber 503; ApiError.message := "" |})).
    right. exists 503. repeat split; lia.
  - destruct (retry 2
                {| ApiError.status := JsNumber 503; ApiError.message := "" |})
      eqn:R; [|reflexivity].
    apply (proj1 (retry_policy 2 _)) in R.
    destruct R as [N|[n [E [_ L]]]]; [now contradiction N | lia].
  - apply (proj1 (proj2 (retry_policy 0
             {| ApiError.status := JsNumber 404; ApiError.message := "" |}))
             404 eq_refl).
    lia.
  - apply (proj2 (proj2 (retry_policy 0
             {| ApiError.status := JsNumber 503; ApiError.message := "" |}))
             503 10%nat eq_refl).
    lia.
  - apply (proj1 (retry_policy 7
             {| ApiError.status := JsUndefined; ApiError.message := "" |})).
    left. discriminate.
Defined.

(** ** The scenario of the spec, run on the in-memory datastore *)

(** U1 posts a link, the post is read back, U2 likes it, likes it again,
    and takes the like back; the count of likes is read in between. *)
Example spec_scenario :
  let id := randomUUID env0 in
  let s1 := respond PostHandler.create env0
              (req_body [("title", "Hi"); ("url", "http://x")]) as_U1
              db_empty in
  let s2 := respond PostHandler.get env0 (req_params "id" id) as_U2 (fst s1) in
  let s3 := respond LikeHandler.create env0 (req_params "postId" id) as_U2
              (fst s2) in
  let s4 := respond LikeHandler.create env0 (req_params "postId" id) as_U2
              (fst s3) in
  let s5 := respond LikeHandler.list env0 (req_params "postId" id) as_U1
              (fst s4) in
  let s6 := respond LikeHandler.delete env0 (req_params "postId" id) as_U2
              (fst s5) in
  let s7 := respond LikeHandler.list env0 (req_params "postId" id) as_U1
              (fst s6) in
  snd s1 = sendStatus 200
  /\ (exists p, snd s2 = send (PostBody p) /\ Post.userId p = Some "U1")
  /\ snd s3 = sendStatus 200
  /\ snd s4
     = status_send 400 (ErrorBody "No more likes for same post, same userid")
  /\ snd s5 = send (LikesBody 1)
  /\ snd s6 = sendStatus 200
  /\ snd s7 = send (LikesBody 0).
Proof.
  cbv zeta. split; [reflexivity|]. split.
  - eexists. split; reflexivity.
  - repeat split.
Qed.

(** * Further properties of the handlers *)

(** X1. The handlers that write do so on the way to their 200 and nowhere
    else: whenever Like create, Like delete or Post delete ends in anything
    but the bare status 200 (a 400, a 404, or an exception of a read), the
    datastore is as it was; so is it when Post create answers 400. *)
Theorem writes_only_on_success {DB : Type} {db : Datastore DB}
  (env : Env) (req : Request) (locals : Locals) (d : DB) :
  (snd (LikeHandler.create env req locals d) <> Returned (sendStatus 200) ->
   fst (LikeHandler.create env req locals d) = d)
  /\ (snd (LikeHandler.delete env req locals d) <> Returned (sendStatus 200) ->
      fst (LikeHandler.delete env req locals d) = d)
  /\ (snd (PostHandler.delete env req locals d) <> Returned (sendStatus 200) ->
      fst (PostHandler.delete env req locals d) = d)
  /\ (snd (PostHandler.create env req locals d) = Returned (sendStatus 400) ->
      fst (PostHandler.create env req locals d) = d).
Proof.
  repeat split; unfold_handlers; datastore_cases; intros H;
    solve [reflexivity | now contradiction H | discriminate].
Qed.

(** A like of a post that is not there, and a delete without [postId], on
    the in-memory datastore. *)
Lemma writes_only_on_success_witness :
  fst (LikeHandler.create env0 (req_params "postId" "p9") as_U2 db_liked)
  = db_liked
  /\ fst (PostHandler.delete env0 req_none as_U2 db_liked) = db_liked.
Proof.
  pose proof (writes_only_on_success (db := MemDb_Datastore)) as W.
  split.
  - apply (proj1 (W env0 (req_params "postId" "p9") as_U2 db_liked)).
    discriminate.
  - apply (proj1 (proj2 (proj2 (W env0 req_none as_U2 db_liked)))).
    discriminate.
Defined.

(** X2. Like list: a missing [postId] is answered 400; otherwise the answer
    is 200 with the number [getLikes] resolves to, and a rejection of
    [getLikes] is thrown.  The post is not looked up: a post that does not
    exist has its count answered like any other.  The datastore is never
    changed. *)
Theorem like_list_contract {DB : Type} {db : Datastore DB}
  (env : Env) (req : Request) (locals : Locals) (d : DB) :
  (falsy (prop "postId" (params req)) = true ->
   LikeHandler.list env req locals d
   = (d, Returned (status_send 400 (ErrorBody "Post ID missing"))))
  /\ (forall postId,
        truthy (prop "postId" (params req)) = Some postId ->
        (forall n,
           getLikes postId d = Resolved n ->
           LikeHandler.list env req locals d
           = (d, Returned (send (LikesBody n))))
        /\ (forall e,
              getLikes postId d = Rejected e ->
              LikeHandler.list env req locals d = (d, Thrown e)))
  /\ fst (LikeHandler.list env req locals d) = d.
Proof.
  split; [|split].
  - intros F. apply falsy_truthy in F.
    unfold LikeHandler.list. now rewrite F.
  - intros postId E. split; intros x G;
      unfold LikeHandler.list, bind, await_read; now rewrite E, G.
  - unfold_handlers; datastore_cases; reflexivity.
Qed.

(** The likes of a post that is not stored are counted, where a like of it
    is answered 404. *)
Lemma like_list_contract_witness :
  LikeHandler.list env0 (req_params "postId" "p9") as_U2 db_liked
  = (db_liked, Returned (send (LikesBody 0)))
  /\ LikeHandler.list env0 (req_params "postId" "p1") as_U1 db_liked
     = (db_liked, Returned (send (LikesBody 1)))
  /\ LikeHandler.list env0 req_none as_U2 db_liked
     = (db_liked, Returned (status_send 400 (ErrorBody "Post ID missing"))).
Proof.
  pose proof (like_list_contract (db := MemDb_Datastore)) as C.
  split; [|split].
  - apply (proj1 (proj1 (proj2 (C env0 (req_params "postId" "p9") as_U2
                                    db_liked)) "p9" eq_refl)).
    reflexivity.
  - apply (proj1 (proj1 (proj2 (C env0 (req_params "postId" "p1") as_U1
                                    db_liked)) "p1" eq_refl)).
    reflexivity.
  - apply (proj1 (C env0 req_none as_U2 db_liked)). reflexivity.
Defined.

(** X3. Post list reads nothing of the request: it asks the datastore for
    the posts with the caller's [res.locals.userId], answers 200 with the
    list as it resolves, in that order, throws a rejection, has no 400 and
    never changes the datastore. *)
Theorem post_list_contract {DB : Type} {db : Datastore DB}
  (env : Env) (req : Request) (locals : Locals) (d : DB) :
  (forall ps,
     listPosts (userId locals) d = Resolved ps ->
     PostHandler.list env req locals d = (d, Returned (send (PostsBody ps))))
  /\ (forall e,
        listPosts (userId locals) d = Rejected e ->
        PostHandler.list env req locals d = (d, Thrown e))
  /\ (forall env' req',
        PostHandler.list env' req' locals d
        = PostHandler.list env req locals d)
  /\ fst (PostHandler.list env req locals d) = d.
Proof.
  split; [|split; [|split]].
  - intros ps L. unfold PostHandler.list, bind, await_read. now rewrite L.
  - intros e L. unfold PostHandler.list, bind, await_read. now rewrite L.
  - reflexivity.
  - unfold_handlers; datastore_cases; reflexivity.
Qed.

Lemma post_list_contract_witness :
  PostHandler.list env0 req_none as_U2 db_liked
  = (db_liked, Returned (send (PostsBody [post1]))).
Proof.
  apply (proj1 (post_list_contract (db := MemDb_Datastore) env0 req_none
                  as_U2 db_liked)).
  reflexivity.
Defined.

(** X4. The statuses a handler answers with are few: 200, 400 and 404 for
    Like create, Like delete and Post get; 200 and 400 for Like list, Post
    create and Post delete; 200 alone for Post list.  No handler answers
    401, 409 or 500 itself. *)
Theorem handler_statuses {DB : Type} {db : Datastore DB}
  (env : Env) (req : Request) (locals : Locals) (d : DB) (r : Response) :
  (snd (LikeHandler.create env req locals d) = Returned r ->
   In (statusCode r) [200; 400; 404])
  /\ (snd (LikeHandler.delete env req locals d) = Returned r ->
      In (statusCode r) [200; 400; 404])
  /\ (snd (LikeHandler.list env req locals d) = Returned r ->
      In (statusCode r) [200; 400])
  /\ (snd (PostHandler.create env req locals d) = Returned r ->
      In (statusCode r) [200; 400])
  /\ (snd (PostHandler.delete env req locals d) = Returned r ->
      In (statusCode r) [200; 400])
  /\ (snd (PostHandler.get env req locals d) = Returned r ->
      In (statusCode r) [200; 400; 404])
  /\ (snd (PostHandler.list env req locals d) = Returned r ->
      statusCode r = 200).
Proof.
  repeat split; unfold_handlers; datastore_cases; intros H;
    try discriminate; inversion H; subst; simpl; tauto.
Qed.

Lemma handler_statuses_witness :
  In (statusCode
        (status_send 400
           (ErrorBody "No more likes for same post, same userid")))
    [200; 400; 404].
Proof.
  apply (proj1 (handler_statuses (db := MemDb_Datastore) env0
                  (req_params "postId" "p1") as_U2 db_liked
                  (status_send 400
                     (ErrorBody "No more likes for same post, same userid")))).
  reflexivity.
Defined.

(** X5. A handler throws nothing of its own: what it throws is the reason
    of a rejected call that it waited for, [getPost] or [exists] in Like
    create, [getPost] in Like delete and Post get, [getLikes] in Like list,
    [createPost] in Post create, [listPosts] in Post list.  Post delete,
    which waits for nothing, never throws. *)
Theorem handler_throws_rejections {DB : Type} {db : Datastore DB}
  (env : Env) (req : Request) (locals : Locals) (d : DB) (e : string) :
  (snd (LikeHandler.create env req locals d) = Thrown e ->
   exists postId,
     truthy (prop "postId" (params req)) = Some postId
     /\ (getPost postId None d = Rejected e
         \/ exists_ {| Like.postId := postId; Like.userId := userId locals |}
              d = Rejected e))
  /\ (snd (LikeHandler.delete env req locals d) = Thrown e ->
      exists postId,
        truthy (prop "postId" (params req)) = Some postId
        /\ getPost postId None d = Rejected e)
  /\ (snd (LikeHandler.list env req locals d) = Thrown e ->
      exists postId,
        truthy (prop "postId" (params req)) = Some postId
        /\ getLikes postId d = Rejected e)
  /\ (snd (PostHandler.create env req locals d) = Thrown e ->
      exists title url,
        truthy (prop "title" (body req)) = Some title
        /\ truthy (prop "url" (body req)) = Some url
        /\ snd (createPost
                  {| Post.id := randomUUID env; Post.postedAt := now env;
                     Post.title := title; Post.url := url;
                     Post.userId := userId locals |} d) = Rejected e)
  /\ (snd (PostHandler.delete env req locals d) = Thrown e -> False)
  /\ (snd (PostHandler.get env req locals d) = Thrown e ->
      exists id,
        truthy (prop "id" (params req)) = Some id
        /\ getPost id (userId locals) d = Rejected e)
  /\ (snd (PostHandler.list env req locals d) = Thrown e ->
      listPosts (userId locals) d = Rejected e).
Proof.
  repeat split; unfold_handlers; datastore_cases; intros H;
    try discriminate; inversion H; subst;
    try (eexists; split; [reflexivity|]; now auto).
  - do 2 eexists. split; [reflexivity|]. split; [reflexivity|].
    match goal with E : createPost _ _ = _ |- _ => now rewrite E end.
  - reflexivity.
Qed.

(** Post create on the datastore that is down. *)
Lemma handler_throws_rejections_witness :
  exists title url,
    truthy (prop "title" (body (req_body [("title", "Hi");
                                          ("url", "http://x")])))
    = Some title
    /\ truthy (prop "url" (body (req_body [("title", "Hi");
                                           ("url", "http://x")])))
       = Some url
    /\ snd (@createPost _ Unavailable_Datastore
              {| Post.id := randomUUID env0; Post.postedAt := now env0;
                 Post.title := title; Post.url := url;
                 Post.userId := userId as_U1 |} db_post)
       = Rejected "datastore unavailable".
Proof.
  apply (proj1 (proj2 (proj2 (proj2
           (handler_throws_rejections (db := Unavailable_Datastore) env0
              (req_body [("title", "Hi"); ("url", "http://x")]) as_U1
              db_post "datastore unavailable"))))).
  reflexivity.
Defined.

(** X8. Taking a Like back makes room for it again.  On a datastore that is
    up and for a post that exists, whether or not the pair was liked: after
    Like delete, Like create of the same pair is answered the bare status
    200, not the duplicate-like 400, and the pair exists afterwards. *)
Theorem like_delete_then_create {DB : Type} {db : Datastore DB}
  {laws : DatastoreLaws DB}
  (env : Env) (req : Request) (locals : Locals) (d : DB)
  (postId : string) (p : Post.t) :
  truthy (prop "postId" (params req)) = Some postId ->
  getPost postId None d = Resolved (Some p) ->
  let like := {| Like.postId := postId; Like.userId := userId locals |} in
  let d1 := fst (LikeHandler.delete env req locals d) in
  let d2 := fst (LikeHandler.create env req locals d1) in
  snd (LikeHandler.delete env req locals d) = Returned (sendStatus 200)
  /\ snd (LikeHandler.create env req locals d1) = Returned (sendStatus 200)
  /\ exists_ like d2 = Resolved true.
Proof.
  intros E G like d1 d2.
  assert (D : LikeHandler.delete env req locals d
              = (fst (deleteLike like d), Returned (sendStatus 200)))
    by now apply like_delete_post with (p := p).
  assert (C : LikeHandler.create env req locals d1
              = (fst (createLike like d1), Returned (sendStatus 200))).
  { unfold d1. rewrite D; simpl.
    apply like_create_fresh with (p := p); auto.
    - now rewrite getPost_deleteLike.
    - apply exists_deleteLike. }
  split; [now rewrite D|]. split; [now rewrite C|].
  unfold d2. rewrite C; simpl. apply exists_createLike.
Qed.

(** U2 takes the like of [p1] back and likes it again. *)
Lemma like_delete_then_create_witness :
  snd (LikeHandler.delete env0 (req_params "postId" "p1") as_U2 db_liked)
  = Returned (sendStatus 200)
  /\ snd (LikeHandler.create env0 (req_params "postId" "p1") as_U2
            (fst (LikeHandler.delete env0 (req_params "postId" "p1") as_U2
                    db_liked)))
     = Returned (sendStatus 200)
  /\ exists_ {| Like.postId := "p1"; Like.userId := Some "U2" |}
       (fst (LikeHandler.create env0 (req_params "postId" "p1") as_U2
               (fst (LikeHandler.delete env0 (req_params "postId" "p1") as_U2
                       db_liked))))
     = Resolved true.
Proof.
  exact (like_delete_then_create (db := MemDb_Datastore) env0
           (req_params "postId" "p1") as_U2 db_liked (p := post1)
           eq_refl eq_refl).
Defined.

(** X9. Behind the gate the author of a Like or of a post is the identity
    of the credential and nothing else of the request.  On a gated
    createLike or createPost endpoint, a request whose credential resolves to
    [u] and that passes the handler's checks stores a Like, or a post, whose
    [userId] is [u]; without a credential nothing is stored. *)
Theorem author_is_credential {DB : Type} {db : Datastore DB}
  (ENDPOINT_CONFIGS : Endpoints.t -> EndpointConfig)
  (userHandler : UserHandler.t DB) (commentHandler : CommentHandler.t DB)
  (resolveCredential : Fields -> option string)
  (env : Env) (req : Request) (d : DB) :
  let served :=
    serve ENDPOINT_CONFIGS userHandler commentHandler resolveCredential in
  (flag (auth (ENDPOINT_CONFIGS Endpoints.createLike)) = true ->
   (forall u postId p,
      resolveCredential (headers req) = Some u ->
      truthy (prop "postId" (params req)) = Some postId ->
      getPost postId None d = Resolved (Some p) ->
      exists_ {| Like.postId := postId; Like.userId := Some u |} d
      = Resolved false ->
      served Endpoints.createLike env req d
      = (fst (createLike {| Like.postId := postId; Like.userId := Some u |}
                d),
         sendStatus 200))
   /\ (resolveCredential (headers req) = None ->
       served Endpoints.createLike env req d = (d, sendStatus 401)))
  /\
  (flag (auth (ENDPOINT_CONFIGS Endpoints.createPost)) = true ->
   (forall u title url,
      resolveCredential (headers req) = Some u ->
      truthy (prop "title" (body req)) = Some title ->
      truthy (prop "url" (body req)) = Some url ->
      fst (served Endpoints.createPost env req d)
      = fst (createPost
               {| Post.id := randomUUID env; Post.postedAt := now env;
                  Post.title := title; Post.url := url;
                  Post.userId := Some u |} d))
   /\ (resolveCredential (headers req) = None ->
       served Endpoints.createPost env req d = (d, sendStatus 401))).
Proof.
  intros served. split; intros A; split.
  - intros u postId p R E G X. unfold served.
    rewrite (served_gated_identified ENDPOINT_CONFIGS userHandler
               commentHandler resolveCredential Endpoints.createLike
               env req d A R).
    unfold respond; cbn [HANDLERS].
    now rewrite (like_create_fresh env req {| userId := Some u |} d E G X).
  - intros R. now apply served_gated_anonymous.
  - intros u title url R T U. unfold served.
    rewrite (served_gated_identified ENDPOINT_CONFIGS userHandler
               commentHandler resolveCredential Endpoints.createPost
               env req d A R).
    unfold respond; cbn [HANDLERS].
    rewrite (post_create_valid env req {| userId := Some u |} d T U).
    cbv zeta. cbn [userId].
    destruct (snd (createPost _ d)); reflexivity.
  - intros R. now apply served_gated_anonymous.
Qed.

(** U2's credential on the like of [p1]; no credential on a post. *)
Lemma author_is_credential_witness :
  serve sample_configs sample_users sample_comments sample_credentials
    Endpoints.createLike env0
    (req_signed "postId" "p1" "Bearer token-of-U2") db_post
  = (db_liked, sendStatus 200)
  /\ serve sample_configs sample_users sample_comments sample_credentials
       Endpoints.createPost env0
       (req_body [("title", "Hi"); ("url", "http://x")]) db_post
     = (db_post, sendStatus 401).
Proof.
  pose proof (author_is_credential (db := MemDb_Datastore) sample_configs
                sample_users sample_comments sample_credentials) as G.
  split.
  - destruct (G env0 (req_signed "postId" "p1" "Bearer token-of-U2") db_post)
      as [L _].
    exact (proj1 (L eq_refl) "U2" "p1" post1 eq_refl eq_refl eq_refl eq_refl).
  - destruct (G env0 (req_body [("title", "Hi"); ("url", "http://x")])
                db_post) as [_ P].
    exact (proj2 (P eq_refl) eq_refl).
Defined.

(** * Properties of the web client *)

Section ClientProofs.
Variable NODE_ENV : option string.
Variable localStorage : Fields.
Variable Obj : Type.
Variable error_of : Obj -> option string.
Variable Req : Type.
Variable JSON_stringify : Req -> string.
Variable fetch : string -> FetchInit -> Promise (FetchResponse.t Obj).

Abbreviation call :=
  (callEndpoint NODE_ENV localStorage error_of JSON_stringify fetch).
Abbreviation sent := (fetch_init localStorage JSON_stringify).

Lemma callEndpoint_not_ok url method request response :
  fetch (HOST NODE_ENV ++ url) (sent method request) = Resolved response ->
  FetchResponse.ok response = false ->
  call url method request
  = Throw {| ApiError.status := JsNumber (FetchResponse.status response);
             ApiError.message := error_message error_of response |}.
Proof.
  intros F K; unfold callEndpoint; now rewrite F, K.
Qed.

Lemma callEndpoint_rejected url method request reason :
  fetch (HOST NODE_ENV ++ url) (sent method request) = Rejected reason ->
  call url method request = Throw (other_error reason).
Proof.
  intros F; unfold callEndpoint; now rewrite F.
Qed.

Lemma callEndpoint_ok_json url method request response ct :
  fetch (HOST NODE_ENV ++ url) (sent method request) = Resolved response ->
  FetchResponse.ok response = true ->
  FetchResponse.content_type response = Some ct ->
  includes ct "application/json" = true ->
  call url method request
  = match FetchResponse.json response with
    | Resolved j => Return (Parsed j)
    | Rejected reason => Throw (other_error reason)
    end.
Proof.
  intros F K C I; unfold callEndpoint; now rewrite F, K, C, I.
Qed.

Lemma callEndpoint_ok_other url method request response :
  fetch (HOST NODE_ENV ++ url) (sent method request) = Resolved response ->
  FetchResponse.ok response = true ->
  match FetchResponse.content_type response with
  | Some ct => includes ct "application/json"
  | None => false
  end = false ->
  call url method request = Return EmptyObject.
Proof.
  intros F K C; unfold callEndpoint; rewrite F, K; simpl.
  now rewrite C.
Qed.

End ClientProofs.

Lemma retry_no_status (failureCount : Z) (reason : string) :
  retry failureCount (other_error reason) = true.
Proof. reflexivity. Qed.

Lemma refetches_no_status (fuel : nat) (failureCount : Z) (reason : string) :
  refetches fuel failureCount (other_error reason) = fuel.
Proof.
  revert failureCount.
  induction fuel as [|fuel IH]; intros failureCount; [reflexivity|].
  cbn [refetches]. rewrite retry_no_status. now rewrite IH.
Qed.

(** X10. A response that is not ok never gives data: [callEndpoint] throws
    an [ApiError] with the status of the response, whatever the body is,
    JSON or not.  With the client's [retry], a query that keeps getting a
    status under 500 is not run again, and one that keeps getting 500 or
    more is run again twice. *)
Theorem http_error_is_thrown_and_retried_by_status
  (NODE_ENV : option string) (localStorage : Fields)
  (Obj : Type) (error_of : Obj -> option string)
  (Req : Type) (JSON_stringify : Req -> string)
  (fetch : string -> FetchInit -> Promise (FetchResponse.t Obj))
  (url : string) (method : Method.t) (request : Req)
  (response : FetchResponse.t Obj) :
  fetch (HOST NODE_ENV ++ url) (fetch_init localStorage JSON_stringify
                                  method request)
  = Resolved response ->
  FetchResponse.ok response = false ->
  exists e,
    callEndpoint NODE_ENV localStorage error_of JSON_stringify fetch
      url method request = Throw e
    /\ ApiError.status e = JsNumber (FetchResponse.status response)
    /\ (forall reason,
          FetchResponse.json response = Rejected reason ->
          ApiError.message e = "")
    /\ (FetchResponse.status response < 500 ->
        forall failureCount fuel,
          retry failureCount e = false
          /\ refetches fuel failureCount e = O)
    /\ (500 <= FetchResponse.status response ->
        forall fuel, refetches fuel 0 e = Nat.min fuel 2).
Proof.
  intros F K. eexists.
  split; [eapply callEndpoint_not_ok; eassumption|].
  split; [reflexivity|]. split; [|split].
  - intros reason J. simpl. unfold error_message. now rewrite J.
  - intros L.
    assert (R : forall c,
              retry c {| ApiError.status :=
                           JsNumber (FetchResponse.status response);
                         ApiError.message :=
                           error_message error_of response |} = false).
    { intros c. rewrite retry_number.
      destruct (Z.leb_spec 500 (FetchResponse.status response));
        [lia | reflexivity]. }
    intros c fuel. split; [apply R|].
    destruct fuel; simpl; [reflexivity | now rewrite R].
  - intros L fuel.
    rewrite (@refetches_server_error fuel 0 (FetchResponse.status response)
               {| ApiError.status := JsNumber (FetchResponse.status response);
                  ApiError.message := error_message error_of response |}
               eq_refl L); [reflexivity | lia].
Qed.

(** A 503 page and a 404 page, neither of them JSON. *)
Lemma http_error_is_thrown_and_retried_by_status_witness :
  (exists e,
     callEndpoint None [] Body_error stringify_fields
       (fetch_always (Resolved response_503)) "/api/v1/posts" Method.get []
     = Throw e
     /\ ApiError.status e = JsNumber 503
     /\ ApiError.message e = ""
     /\ refetches 10 0 e = 2%nat)
  /\ (exists e,
        callEndpoint None [] Body_error stringify_fields
          (fetch_always (Resolved response_404)) "/api/v1/posts" Method.get []
        = Throw e
        /\ ApiError.status e = JsNumber 404
        /\ retry 0 e = false).
Proof.
  split.
  - destruct (http_error_is_thrown_and_retried_by_status None []
                Body_error stringify_fields
                (fetch_always (Resolved response_503)) "/api/v1/posts"
                Method.get [] (response := response_503) eq_refl eq_refl)
      as (e & C & S & M & _ & R).
    exists e. split; [exact C|]. split; [exact S|].
    split; [exact (M _ eq_refl)|].
    apply (R ltac:(simpl; lia) 10%nat).
  - destruct (http_error_is_thrown_and_retried_by_status None []
                Body_error stringify_fields
                (fetch_always (Resolved response_404)) "/api/v1/posts"
                Method.get [] (response := response_404) eq_refl eq_refl)
      as (e & C & S & _ & R & _).
    exists e. split; [exact C|]. split; [exact S|].
    apply (R ltac:(simpl; lia) 0 0%nat).
Defined.

(** X11. What is thrown without a [status] is run again without end.  When
    [fetch] rejects, or when an ok response that names JSON as its content
    type has a body that does not parse, [callEndpoint] throws that failure
    as it is; [retry] answers true for it at every count, so a query that
    keeps failing so is run again after each failure. *)
Theorem failure_without_status_is_retried_for_ever
  (NODE_ENV : option string) (localStorage : Fields)
  (Obj : Type) (error_of : Obj -> option string)
  (Req : Type) (JSON_stringify : Req -> string)
  (fetch : string -> FetchInit -> Promise (FetchResponse.t Obj))
  (url : string) (method : Method.t) (request : Req) (reason : string) :
  fetch (HOST NODE_ENV ++ url) (fetch_init localStorage JSON_stringify
                                  method request)
  = Rejected reason
  \/ (exists response ct,
        fetch (HOST NODE_ENV ++ url) (fetch_init localStorage JSON_stringify
                                        method request)
        = Resolved response
        /\ FetchResponse.ok response = true
        /\ FetchResponse.content_type response = Some ct
        /\ includes ct "application/json" = true
        /\ FetchResponse.json response = Rejected reason) ->
  exists e,
    callEndpoint NODE_ENV localStorage error_of JSON_stringify fetch
      url method request = Throw e
    /\ ApiError.status e = JsUndefined
    /\ forall failureCount fuel,
         retry failureCount e = true
         /\ refetches fuel failureCount e = fuel.
Proof.
  intros H. exists (other_error reason). split; [|split].
  - destruct H as [F|(response & ct & F & K & C & I & J)].
    + now apply callEndpoint_rejected.
    + rewrite (callEndpoint_ok_json NODE_ENV localStorage error_of
                 JSON_stringify fetch url method request F K C I).
      now rewrite J.
  - reflexivity.
  - intros c fuel. split;
      [apply retry_no_status | apply refetches_no_status].
Qed.

(** No network, and a 200 whose JSON body is cut. *)
Lemma failure_without_status_is_retried_for_ever_witness :
  (exists e,
     callEndpoint None [] Body_error stringify_fields
       (fetch_always (Rejected "Failed to fetch")) "/api/v1/posts"
       Method.get [] = Throw e
     /\ refetches 1000 0 e = 1000%nat)
  /\ (exists e,
        callEndpoint None [] Body_error stringify_fields
          (fetch_always (Resolved response_cut)) "/api/v1/posts"
          Method.get [] = Throw e
        /\ refetches 1000 0 e = 1000%nat).
Proof.
  split.
  - destruct (failure_without_status_is_retried_for_ever None []
                Body_error stringify_fields
                (fetch_always (Rejected "Failed to fetch")) "/api/v1/posts"
                Method.get [] (reason := "Failed to fetch")
                (or_introl eq_refl))
      as (e & C & _ & R).
    exists e. split; [exact C | exact (proj2 (R 0 1000%nat))].
  - destruct (failure_without_status_is_retried_for_ever None []
                Body_error stringify_fields
                (fetch_always (Resolved response_cut)) "/api/v1/posts"
                Method.get [] (reason := "Unexpected end of JSON input")
                (or_intror
                   (ex_intro _ response_cut
                      (ex_intro _ "application/json; charset=utf-8"
                         (conj eq_refl
                            (conj eq_refl
                               (conj eq_refl (conj eq_refl eq_refl))))))))
      as (e & C & _ & R).
    exists e. split; [exact C | exact (proj2 (R 0 1000%nat))].
Defined.

(** ** Server and client together *)

Lemma includes_json :
  includes "application/json; charset=utf-8" "application/json" = true.
Proof. reflexivity. Qed.

Lemma includes_text :
  includes "text/plain; charset=utf-8" "application/json" = false.
Proof. reflexivity. Qed.

Lemma callEndpoint_over_the_wire
  (NODE_ENV : option string) (localStorage : Fields)
  (Req : Type) (JSON_stringify : Req -> string)
  (fetch : string -> FetchInit -> Promise (FetchResponse.t Body))
  (url : string) (method : Method.t) (request : Req) (r : Response) :
  fetch (HOST NODE_ENV ++ url) (fetch_init localStorage JSON_stringify
                                  method request)
  = Resolved (over_the_wire r) ->
  callEndpoint NODE_ENV localStorage Body_error JSON_stringify fetch
    url method request
  = if (200 <=? statusCode r) && (statusCode r <=? 299)
    then match payload r with
         | StatusText | GenericErrorBody => Return EmptyObject
         | b => Return (Parsed (Some b))
         end
    else Throw {| ApiError.status := JsNumber (statusCode r);
                  ApiError.message :=
                    match Body_error (payload r) with
                    | Some e => e
                    | None => ""
                    end |}.
Proof.
  intros F. unfold callEndpoint. rewrite F.
  unfold over_the_wire, error_message; cbn [FetchResponse.ok
    FetchResponse.status FetchResponse.content_type FetchResponse.json].
  destruct ((200 <=? statusCode r) && (statusCode r <=? 299));
    cbn [negb]; destruct (payload r);
    try rewrite includes_json; try rewrite includes_text; reflexivity.
Qed.

Lemma src_handler_returns {DB : Type} {db : Datastore DB}
  (entry : Endpoints.t) (h : Handler DB)
  (env : Env) (req : Request) (locals : Locals) (d : DB) (r : Response) :
  src_handler entry = Some h ->
  snd (h env req locals d) = Returned r ->
  (statusCode r = 200 /\ payload r <> GenericErrorBody)
  \/ (In (statusCode r) [400; 404]
      /\ (payload r = StatusText \/ exists msg, payload r = ErrorBody msg)).
Proof.
  intros S; destruct entry; simpl in S; try discriminate;
    inversion S; subst; clear S;
    unfold_handlers; datastore_cases; intros H;
    try discriminate; inversion H; subst; simpl;
    try (left; split; [reflexivity | discriminate]);
    right; (split; [tauto | eauto]).
Qed.

(** X12. What a handler of posts or likes answers is what the client's
    [callEndpoint] ends with.  A 200 is returned as data.  A 400 or a 404 is
    thrown as an [ApiError] with that status, whose message is the handler's
    error text, or empty where the handler sent the bare status; the
    client's [retry] never runs it again. *)
Theorem handler_answer_reaches_client {DB : Type} {db : Datastore DB}
  (entry : Endpoints.t) (h : Handler DB)
  (env : Env) (req : Request) (locals : Locals) (d : DB) (r : Response)
  (NODE_ENV : option string) (localStorage : Fields)
  (Req : Type) (JSON_stringify : Req -> string)
  (fetch : string -> FetchInit -> Promise (FetchResponse.t Body))
  (url : string) (method : Method.t) (request : Req) :
  src_handler entry = Some h ->
  snd (h env req locals d) = Returned r ->
  fetch (HOST NODE_ENV ++ url) (fetch_init localStorage JSON_stringify
                                  method request)
  = Resolved (over_the_wire r) ->
  let outcome :=
    callEndpoint NODE_ENV localStorage Body_error JSON_stringify fetch
      url method request in
  (statusCode r = 200
   /\ (payload r = StatusText -> outcome = Return EmptyObject)
   /\ (payload r <> StatusText ->
       outcome = Return (Parsed (Some (payload r)))))
  \/ (In (statusCode r) [400; 404]
      /\ exists e,
           outcome = Throw e
           /\ ApiError.status e = JsNumber (statusCode r)
           /\ (forall msg,
                 payload r = ErrorBody msg -> ApiError.message e = msg)
           /\ (payload r = StatusText -> ApiError.message e = "")
           /\ forall failureCount, retry failureCount e = false).
Proof.
  intros S H F outcome.
  pose proof (@callEndpoint_over_the_wire NODE_ENV localStorage Req
                JSON_stringify fetch url method request r F) as C.
  fold outcome in C.
  destruct (@src_handler_returns DB db entry h env req locals d r S H)
    as [[E N]|[I P]].
  - left. split; [exact E|]. rewrite E in C. cbn in C. split.
    + intros T. now rewrite T in C.
    + intros T. destruct (payload r); try exact C; now contradiction.
  - right. split; [exact I|].
    assert (K : (200 <=? statusCode r) && (statusCode r <=? 299) = false).
    { simpl in I. destruct I as [<-|[<-|[]]]; reflexivity. }
    rewrite K in C. eexists. split; [exact C|].
    split; [reflexivity|]. split; [|split].
    + intros msg M. simpl. now rewrite M.
    + intros T. simpl. now rewrite T.
    + intros c. rewrite retry_number.
      simpl in I. destruct I as [<-|[<-|[]]]; reflexivity.
Qed.

(** The duplicate like and the bare 400 of Post create, at the client. *)
Lemma handler_answer_reaches_client_witness :
  callEndpoint None storage_of_U2 Body_error stringify_fields
    (fetch_always
       (Resolved
          (over_the_wire
             (status_send 400
                (ErrorBody "No more likes for same post, same userid")))))
    "/api/v1/likes/p1" Method.post []
  = Throw {| ApiError.status := JsNumber 400;
             ApiError.message := "No more likes for same post, same userid" |}
  /\ callEndpoint None storage_of_U2 Body_error stringify_fields
       (fetch_always (Resolved (over_the_wire (sendStatus 400))))
       "/api/v1/posts" Method.post [("title", "Hi")]
     = Throw {| ApiError.status := JsNumber 400; ApiError.message := "" |}.
Proof.
  split.
  - destruct (handler_answer_reaches_client (db := MemDb_Datastore)
                Endpoints.createLike env0 (req_params "postId" "p1") as_U2
                db_liked
                (r := status_send 400
                        (ErrorBody "No more likes for same post, same userid"))
                None storage_of_U2 stringify_fields
                (fetch_always
                   (Resolved
                      (over_the_wire
                         (status_send 400
                            (ErrorBody
                               "No more likes for same post, same userid")))))
                "/api/v1/likes/p1" Method.post [] eq_refl eq_refl eq_refl)
      as [[E _]|[_ (e & C & S & M & _)]]; [discriminate E|].
    rewrite C. destruct e as [st msg]; simpl in S, M.
    now rewrite S, (M _ eq_refl).
  - destruct (handler_answer_reaches_client (db := MemDb_Datastore)
                Endpoints.createPost env0 (req_body [("title", "Hi")]) as_U2
                db_liked (r := sendStatus 400)
                None storage_of_U2 stringify_fields
                (fetch_always (Resolved (over_the_wire (sendStatus 400))))
                "/api/v1/posts" Method.post [("title", "Hi")]
                eq_refl eq_refl eq_refl)
      as [[E _]|[_ (e & C & S & _ & M & _)]]; [discriminate E|].
    rewrite C. destruct e as [st msg]; simpl in S, M.
    now rewrite S, (M eq_refl).
Defined.

(** ** The page of posts *)

Lemma map_indexed_posts (i : nat) (ps : list Post.t) :
  map snd (map_indexed i ps) = ps.
Proof.
  revert i; induction ps as [|p ps IH]; intros i; simpl; [|rewrite IH];
    reflexivity.
Qed.

Lemma map_indexed_keys (i : nat) (ps : list Post.t) :
  map fst (map_indexed i ps) = seq i (length ps).
Proof.
  revert i; induction ps as [|p ps IH]; intros i; simpl; [|rewrite IH];
    reflexivity.
Qed.

(** X13. [ListPosts] shows the loading text while the query is loading,
    error or not, and the error text for an error once it is not; with
    neither it renders one card per post of [data.posts], in the order of
    the array and with the keys 0, 1, 2 and so on, no two alike; nothing for
    a [data] that is [undefined] or [null]; and its render throws for a data
    without [posts], as the [{}] that [callEndpoint] returns for a body that
    is not JSON. *)
Theorem ListPosts_renders (Obj : Type)
  (posts_of : Obj -> option (list Post.t)) (q : QueryResult Obj) :
  (isLoading q = true -> ListPosts posts_of q = Div "loading...")
  /\ (isLoading q = false ->
      (forall e, error q = Some e ->
                 ListPosts posts_of q = Div "error loading posts")
      /\ (error q = None ->
          (forall o ps,
             data q = Some (Parsed (Some o)) -> posts_of o = Some ps ->
             exists cards,
               ListPosts posts_of q = Cards cards
               /\ map snd cards = ps
               /\ map fst cards = seq 0 (length ps)
               /\ NoDup (map fst cards))
          /\ (data q = None \/ data q = Some (Parsed None) ->
              ListPosts posts_of q = Cards [])
          /\ (data q = Some EmptyObject
              \/ (exists o, data q = Some (Parsed (Some o))
                            /\ posts_of o = None) ->
              ListPosts posts_of q = RenderError))).
Proof.
  unfold ListPosts. split.
  - intros L; now rewrite L.
  - intros L; rewrite L. split.
    + intros e E; now rewrite E.
    + intros E; rewrite E. split; [|split].
      * intros o ps D P. rewrite D, P. eexists. split; [reflexivity|].
        rewrite map_indexed_posts, map_indexed_keys.
        repeat split. apply seq_NoDup.
      * intros [D|D]; now rewrite D.
      * intros [D|(o & D & P)]; rewrite D; [reflexivity | now rewrite P].
Qed.

(** A page with the one post stored, and a page of the data [{}]. *)
Lemma ListPosts_renders_witness :
  (exists cards,
     ListPosts Body_posts
       {| data := Some (Parsed (Some (PostsBody [post1])));
          error := None; isLoading := false |}
     = Cards cards
     /\ map snd cards = [post1]
     /\ map fst cards = seq 0 1
     /\ NoDup (map fst cards))
  /\ ListPosts Body_posts
       {| data := Some EmptyObject; error := None; isLoading := false |}
     = RenderError.
Proof.
  split.
  - exact (proj1 (proj2 (proj2 (ListPosts_renders Body_posts
             {| data := Some (Parsed (Some (PostsBody [post1])));
                error := None; isLoading := false |}) eq_refl) eq_refl)
             (PostsBody [post1]) [post1] eq_refl eq_refl).
  - exact (proj2 (proj2 (proj2 (proj2 (ListPosts_renders Body_posts
             {| data := Some EmptyObject; error := None;
                isLoading := false |}) eq_refl) eq_refl))
             (or_introl eq_refl)).
Defined.

(** X14. From the datastore to the page.  When Post list is served and its
    answer is what the page's query fetches, the page shows the posts that
    [listPosts] resolved to, one card each, in that order; when [listPosts]
    is rejected, the page shows the error text. *)
Theorem page_shows_listed_posts {DB : Type} {db : Datastore DB}
  (env : Env) (req : Request) (locals : Locals) (d : DB)
  (NODE_ENV : option string) (localStorage : Fields)
  (fetch : string -> FetchInit -> Promise (FetchResponse.t Body))
  (ENDPOINT_CONFIGS : Endpoints.t -> EndpointConfig) :
  fetch (HOST NODE_ENV ++ url (ENDPOINT_CONFIGS Endpoints.listPosts))
    (fetch_init localStorage (fun _ : unit => "{}")
       (method (ENDPOINT_CONFIGS Endpoints.listPosts)) tt)
  = Resolved
      (over_the_wire (snd (respond PostHandler.list env req locals d))) ->
  let page :=
    ListPosts Body_posts
      (settled (listposts_query NODE_ENV localStorage Body_error fetch
                  ENDPOINT_CONFIGS)) in
  (forall ps,
     listPosts (userId locals) d = Resolved ps ->
     exists cards,
       page = Cards cards
       /\ map snd cards = ps
       /\ map fst cards = seq 0 (length ps))
  /\ (forall e,
        listPosts (userId locals) d = Rejected e ->
        page = Div "error loading posts").
Proof.
  intros F page.
  pose proof (@callEndpoint_over_the_wire NODE_ENV localStorage unit
                (fun _ => "{}") fetch
                (url (ENDPOINT_CONFIGS Endpoints.listPosts))
                (method (ENDPOINT_CONFIGS Endpoints.listPosts)) tt _ F) as C.
  unfold page, listposts_query; cbv zeta. rewrite C. clear C F page.
  unfold respond, PostHandler.list, bind, await_read.
  split.
  - intros ps L. rewrite L. cbn. eexists. split; [reflexivity|].
    now rewrite map_indexed_posts, map_indexed_keys.
  - intros e L. rewrite L. reflexivity.
Qed.

Lemma page_shows_listed_posts_witness :
  exists cards,
    ListPosts Body_posts
      (settled
         (listposts_query None storage_of_U2 Body_error
            (fetch_always
               (Resolved
                  (over_the_wire
                     (snd (respond PostHandler.list env0 req_none as_U2
                             db_liked)))))
            sample_configs))
    = Cards cards
    /\ map snd cards = [post1]
    /\ map fst cards = seq 0 1.
Proof.
  exact (proj1 (page_shows_listed_posts (db := MemDb_Datastore) env0
                  req_none as_U2 db_liked None storage_of_U2
                  (fetch_always
                     (Resolved
                        (over_the_wire
                           (snd (respond PostHandler.list env0 req_none
                                   as_U2 db_liked)))))
                  sample_configs eq_refl)
           [post1] eq_refl).
Defined.

(** X15. [callEndpoint] asks the network once, at [HOST] followed by the
    url, and its outcome depends on the network through that answer alone.
    The request has a body exactly when the method is not [get], and always
    an [Authorization] header, which reads [Bearer null] when no token is
    stored under [jwtToken]. *)
Theorem callEndpoint_request
  (NODE_ENV : option string) (localStorage : Fields)
  (Obj : Type) (error_of : Obj -> option string)
  (Req : Type) (JSON_stringify : Req -> string)
  (url : string) (method : Method.t) (request : Req) :
  let init := fetch_init localStorage JSON_stringify method request in
  (forall fetch fetch' : string -> FetchInit -> Promise (FetchResponse.t Obj),
     fetch (HOST NODE_ENV ++ url) init = fetch' (HOST NODE_ENV ++ url) init ->
     callEndpoint NODE_ENV localStorage error_of JSON_stringify fetch
       url method request
     = callEndpoint NODE_ENV localStorage error_of JSON_stringify fetch'
         url method request)
  /\ (HOST NODE_ENV = "http://localhost:3001"
      \/ HOST NODE_ENV = "https://codersquare.xyz")
  /\ (HOST NODE_ENV = "http://localhost:3001"
      <-> NODE_ENV = Some "development")
  /\ init_method init = method
  /\ (init_body init = None <-> method = Method.get)
  /\ (forall token,
        prop "jwtToken" localStorage = Some token ->
        prop "Authorization" (init_headers init) = Some ("Bearer " ++ token))
  /\ (prop "jwtToken" localStorage = None ->
      prop "Authorization" (init_headers init) = Some "Bearer null").
Proof.
  intros init. split; [|split; [|split; [|split; [|split; [|split]]]]].
  - intros fetch fetch' E. unfold callEndpoint. fold init. now rewrite E.
  - unfold HOST. destruct (opt_eqb NODE_ENV (Some "development")); auto.
  - unfold HOST. destruct NODE_ENV as [v|]; simpl.
    + destruct (String.eqb_spec v "development"); subst; split; auto;
        try discriminate.
      intros E; inversion E; contradiction.
    + split; discriminate.
  - reflexivity.
  - unfold init, fetch_init; simpl. destruct method; split;
      auto; discriminate.
  - intros token T. unfold init, fetch_init; simpl.
    unfold LOCAL_STORAGE_JWT. now rewrite T.
  - intros T. unfold init, fetch_init; simpl.
    unfold LOCAL_STORAGE_JWT. now rewrite T.
Qed.

(** A get with no token stored, and a post with U2's. *)
Lemma callEndpoint_request_witness :
  prop "Authorization"
    (init_headers (fetch_init [] stringify_fields Method.get []))
  = Some "Bearer null"
  /\ init_body (fetch_init [] stringify_fields Method.get []) = None
  /\ prop "Authorization"
       (init_headers
          (fetch_init storage_of_U2 stringify_fields Method.post []))
     = Some "Bearer token-of-U2".
Proof.
  pose proof (callEndpoint_request None [] Body_error stringify_fields
                "/api/v1/posts" Method.get []) as G.
  pose proof (callEndpoint_request None storage_of_U2 Body_error
                stringify_fields "/api/v1/posts" Method.post []) as P.
  cbv zeta in G, P.
  destruct G as (_ & _ & _ & _ & B & _ & A).
  destruct P as (_ & _ & _ & _ & _ & T & _).
  split; [exact (A eq_refl)|].
  split; [exact (proj2 B eq_refl)|].
  exact (T "token-of-U2" eq_refl).
Defined.

(** * Requests that overlap *)

(** ** The programs are the handlers *)

Lemma programs_are_handlers {DB : Type} {db : Datastore DB}
  (env : Env) (req : Request) (locals : Locals) (d : DB) :
  run env (LikeProgram.create req locals) d
  = LikeHandler.create env req locals d
  /\ run env (LikeProgram.delete req locals) d
     = LikeHandler.delete env req locals d
  /\ run env (LikeProgram.list req locals) d
     = LikeHandler.list env req locals d
  /\ run env (PostProgram.create req locals) d
     = PostHandler.create env req locals d
  /\ run env (PostProgram.delete req locals) d
     = PostHandler.delete env req locals d
  /\ run env (PostProgram.get req locals) d
     = PostHandler.get env req locals d
  /\ run env (PostProgram.list req locals) d
     = PostHandler.list env req locals d.
Proof.
  unfold LikeProgram.create, LikeProgram.delete, LikeProgram.list,
    PostProgram.create, PostProgram.delete, PostProgram.get, PostProgram.list.
  unfold_handlers.
  repeat split;
    repeat match goal with
      | |- context [truthy ?v] => destruct (truthy v)
      end;
    repeat (progress (cbn [run]; unfold bind, await_read, await, detached, ret;
                      datastore_cases));
    first [reflexivity | congruence].
Qed.

(** ** Invariants of the server under every schedule *)

Section OverlapProofs.
Context {DB : Type}.
Variable uuid_of : nat -> string.
Variable Inv : World DB -> Prop.

(** Giving out an id keeps the invariant. *)
Hypothesis Inv_issue :
  forall w, Inv w -> Inv {| store := store w; issued := S (issued w) |}.

Lemma drawn_mono (ids : list string) (w w' : World DB) :
  (issued w <= issued w')%nat -> drawn uuid_of ids w -> drawn uuid_of ids w'.
Proof.
  intros L D u I. destruct (D u I) as (m & M & E). exists m. split; [lia|auto].
Qed.

Lemma tame_task_mono {A : Type} (task : Task DB A) (w w' : World DB) :
  (issued w <= issued w')%nat ->
  tame_task uuid_of Inv w task -> tame_task uuid_of Inv w' task.
Proof.
  intros L. destruct task as [p|X r k|c]; simpl; auto.
  intros (ids & D & T). exists ids. split; [|exact T].
  now apply drawn_mono with (w := w).
Qed.

Lemma segment_tame {A : Type} (t : Z) (p : Prog DB A) :
  forall ids w,
    tame uuid_of Inv ids p -> drawn uuid_of ids w -> Inv w ->
    Inv (fst (segment uuid_of t p w))
    /\ tame_task uuid_of Inv (fst (segment uuid_of t p w))
         (snd (segment uuid_of t p w))
    /\ (issued w <= issued (fst (segment uuid_of t p w)))%nat.
Proof.
  induction p as [a|k IH|k IH|X read k IH|X write k IH|X write k IH];
    intros ids w T D I; simpl in *.
  - auto.
  - destruct (IH (uuid_of (issued w)) (uuid_of (issued w) :: ids)
                {| store := store w; issued := S (issued w) |})
      as (I' & T' & L); auto.
    + intros u [<-|U].
      * exists (issued w). simpl. split; [lia | reflexivity].
      * destruct (D u U) as (m & M & E). exists m. simpl. split; [lia|auto].
    + simpl in L. repeat split; auto. lia.
  - apply (IH t ids w); auto.
  - repeat split; auto. exists ids. auto.
  - destruct T as [W T]. repeat split; auto.
    exists ids. split; [|exact T]. exact D.
  - destruct T as [W T].
    destruct (IH ids {| store := fst (write (store w)); issued := issued w |})
      as (I' & T' & L); auto.
Qed.

Lemma resume_tame {A : Type} (t : Z) (task : Task DB A) (w : World DB) :
  tame_task uuid_of Inv w task -> Inv w ->
  Inv (fst (resume uuid_of t task w))
  /\ tame_task uuid_of Inv (fst (resume uuid_of t task w))
       (snd (resume uuid_of t task w))
  /\ (issued w <= issued (fst (resume uuid_of t task w)))%nat.
Proof.
  destruct task as [p|X [x|e] k|c]; simpl; intros T I; auto.
  - apply segment_tame with (ids := []); auto.
    intros u [].
  - destruct T as (ids & D & T). now apply segment_tame with (ids := ids).
Qed.

Lemma Forall_replace {T : Type} (P : T -> Prop) (i : nat) (x : T)
  (xs : list T) :
  P x -> Forall P xs -> Forall P (replace i x xs).
Proof.
  intros X F. revert i.
  induction F as [|y ys Y F IH]; intros [|i]; simpl; constructor; auto.
Qed.

Lemma schedule_tame {A : Type} (s : list (nat * Z)) :
  forall (tasks : list (Task DB A)) (w : World DB),
    Forall (tame_task uuid_of Inv w) tasks -> Inv w ->
    Inv (fst (schedule uuid_of s tasks w)).
Proof.
  induction s as [|[i t] s IH]; intros tasks w F I; simpl; auto.
  destruct (nth_error tasks i) as [task|] eqn:N; [|now apply IH].
  assert (T : tame_task uuid_of Inv w task).
  { rewrite Forall_forall in F. apply F. eapply nth_error_In; eauto. }
  destruct (@resume_tame A t task w T I) as (I' & T' & L).
  destruct (resume uuid_of t task w) as [w' task']; simpl in *.
  apply IH; auto. apply Forall_replace; auto.
  eapply Forall_impl; [|exact F].
  intros a. now apply tame_task_mono.
Qed.

End OverlapProofs.

(** ** What the programs write *)

Lemma programs_tame {DB : Type} {db : Datastore DB}
  (uuid_of : nat -> string) (Inv : World DB -> Prop) :
  (forall l ids, write_keeps uuid_of Inv ids (createLike l)) ->
  (forall l ids, write_keeps uuid_of Inv ids (deleteLike l)) ->
  (forall j ids, write_keeps uuid_of Inv ids (deletePost j)) ->
  (forall p ids, In (Post.id p) ids ->
                 write_keeps uuid_of Inv ids (createPost p)) ->
  forall rs, Forall (fun task => forall w, tame_task uuid_of Inv w task)
               (arrivals rs).
Proof.
  intros CL DL DP CP rs. unfold arrivals. apply Forall_forall.
  intros task I. apply in_map_iff in I.
  destruct I as ([entry req locals] & <- & _).
  intros w. simpl. unfold program_of; destruct entry; simpl; auto;
    unfold LikeProgram.create, LikeProgram.delete, LikeProgram.list,
      PostProgram.create, PostProgram.delete, PostProgram.get,
      PostProgram.list;
    repeat match goal with
      | |- context [truthy ?v] => destruct (truthy v)
      end; simpl; auto.
  - intros [p|]; simpl; auto.
  - intros u t. split; auto. apply CP. simpl. auto.
  - intros [p|]; simpl; auto. intros [|]; simpl; auto.
  - intros [p|]; simpl; auto.
Qed.

Section KnownProofs.
Context {DB : Type} {db : Datastore DB}.
Context {laws : DatastoreLaws DB} {post_laws : PostStoreLaws DB}.
Variable uuid_of : nat -> string.

Lemma Known_issue (w : World DB) :
  Known uuid_of w ->
  Known uuid_of {| store := store w; issued := S (issued w) |}.
Proof.
  intros K i N. apply K. intros m M. apply N. simpl. lia.
Qed.

Lemma Known_schedule (rs : list Incoming) (s : list (nat * Z))
  (w : World DB) :
  Known uuid_of w ->
  Known uuid_of (fst (schedule uuid_of s (arrivals rs) w)).
Proof.
  intros K. apply schedule_tame; auto using Known_issue.
  eapply Forall_impl;
    [|apply (@programs_tame DB db uuid_of (Known uuid_of))].
  - intros task T. apply T.
  - intros l ids w' _ K' i N. simpl. rewrite getPost_createLike. now apply K'.
  - intros l ids w' _ K' i N. simpl. rewrite getPost_deleteLike. now apply K'.
  - intros j ids w' _ K' i N. simpl. apply getPost_deletePost. now apply K'.
  - intros p ids I w' D K' i N. simpl in *.
    apply getPost_createPost_other; [|now apply K'].
    destruct (D _ I) as (m & M & E). intros ->. now apply (N m).
Qed.

End KnownProofs.

Lemma tally_length (n : nat) : String.length (tally n) = n.
Proof. induction n; simpl; auto. Qed.

Lemma sample_uuid_inj (m n : nat) : sample_uuid m = sample_uuid n -> m = n.
Proof.
  unfold sample_uuid. simpl. intros E. injection E as E.
  rewrite <- (tally_length m), <- (tally_length n). now rewrite E.
Qed.

Lemma sample_uuid_not_empty (n : nat) : sample_uuid n <> "".
Proof. discriminate. Qed.

Lemma find_app_none {A : Type} (f : A -> bool) (xs : list A) (y : A) :
  find f xs = None -> f y = false -> find f (xs ++ [y]) = None.
Proof.
  induction xs as [|x xs IH]; simpl; intros N Y.
  - now rewrite Y.
  - destruct (f x); [discriminate | auto].
Qed.

Lemma find_filter_none {A : Type} (f g : A -> bool) (xs : list A) :
  find f xs = None -> find f (filter g xs) = None.
Proof.
  induction xs as [|x xs IH]; simpl; auto.
  destruct (f x) eqn:F; [discriminate|]. intros N.
  destruct (g x); simpl; [rewrite F|]; auto.
Qed.

Lemma MemDb_PostStoreLaws : PostStoreLaws MemDb.
Proof.
  split; simpl.
  - intros p i d N G. injection G as G.
    destruct (existsb (has_id (Post.id p)) (posts d)); simpl;
      [now rewrite G|].
    f_equal. apply find_app_none; auto.
    unfold has_id. apply String.eqb_neq. auto.
  - intros j i d G. injection G as G. f_equal.
    now apply find_filter_none.
Qed.
#[export] Existing Instance MemDb_PostStoreLaws.

(** C7. Post create, with [crypto.randomUUID()] a source that never gives an
    id twice and a datastore that is up.  Start from stored posts whose ids
    all came from that source and let any requests to the handlers of posts
    and likes be served before, overlapping in any way.  Then for a request
    with a non-empty [title] and [url] the id that create draws is fresh: it
    differs from every id drawn before and no stored post has it.  Create
    stores [{id, title, url, userId, postedAt}] with that id, the time of
    the call and the caller's [res.locals.userId], and answers the bare
    status 200; a get of that id right after answers 200 with that post. *)
Theorem post_create_then_get {DB : Type} {db : Datastore DB}
  {laws : DatastoreLaws DB} {post_laws : PostStoreLaws DB}
  (uuid_of : nat -> string) (w0 : World DB)
  (earlier : list Incoming) (sched : list (nat * Z))
  (req : Request) (locals : Locals) (title url : string) (t : Z)
  (env' : Env) (req' : Request) (locals' : Locals) :
  (forall m n, uuid_of m = uuid_of n -> m = n) ->
  (forall n, uuid_of n <> "") ->
  Known uuid_of w0 ->
  truthy (prop "title" (body req)) = Some title ->
  truthy (prop "url" (body req)) = Some url ->
  let w := fst (schedule uuid_of sched (arrivals earlier) w0) in
  let env := {| randomUUID := uuid_of (issued w); now := t |} in
  let post :=
    {| Post.id := randomUUID env; Post.postedAt := now env;
       Post.title := title; Post.url := url;
       Post.userId := userId locals |} in
  let d1 := fst (createPost post (store w)) in
  prop "id" (params req') = Some (Post.id post) ->
  (forall m, (m < issued w)%nat -> uuid_of m <> Post.id post)
  /\ getPost (Post.id post) None (store w) = Resolved None
  /\ resumes uuid_of 2 t (Arrived (PostProgram.create req locals)) w
     = ({| store := d1; issued := S (issued w) |},
        Finished (Returned (sendStatus 200)))
  /\ PostHandler.create env req locals (store w)
     = (d1, Returned (sendStatus 200))
  /\ (forall u, getPost (Post.id post) u d1 = Resolved (Some post))
  /\ PostHandler.get env' req' locals' d1
     = (d1, Returned (send (PostBody post)))
  /\ statusCode (send (PostBody post)) = 200.
Proof.
  intros Inj NE K0 T U w env post d1 I.
  assert (K : Known uuid_of w) by now apply Known_schedule.
  assert (D : forall m, (m < issued w)%nat -> uuid_of m <> Post.id post).
  { intros m M E. simpl in E. apply Inj in E. lia. }
  assert (F : getPost (Post.id post) None (store w) = Resolved None)
    by now apply K.
  destruct (getPost_createPost post None (store w) F) as [R _].
  split; [exact D|]. split; [exact F|]. split; [|split; [|split; [|split]]].
  - unfold PostProgram.create. rewrite T, U. cbn.
    pose proof R as R'. unfold post, env in R'. cbn in R'.
    rewrite R'. reflexivity.
  - rewrite (post_create_valid env req locals (store w) T U); cbv zeta.
    fold post. now rewrite R.
  - intros u. now destruct (getPost_createPost post u (store w) F).
  - apply post_get_stored with (id := Post.id post).
    + unfold truthy. rewrite I. simpl.
      destruct (String.eqb_spec (uuid_of (issued w)) ""); auto.
      now contradiction (NE (issued w)).
    + now destruct (getPost_createPost post (userId locals') (store w) F).
  - reflexivity.
Qed.

(** U1 posts a link and U2 likes it, the two requests overlapping; then U2
    posts a link, which gets the second id of the source, and U1 reads it
    back. *)
Lemma post_create_then_get_witness :
  let w :=
    fst (schedule sample_uuid [(0%nat, 1); (1%nat, 2); (0%nat, 3);
                               (1%nat, 4); (1%nat, 5)]
           (arrivals
              [ {| in_entry := Endpoints.createPost;
                   in_req := req_body [("title", "Hi"); ("url", "http://x")];
                   in_locals := as_U1 |};
                {| in_entry := Endpoints.createLike;
                   in_req := req_params "postId" "u";
                   in_locals := as_U2 |} ])
           {| store := db_empty; issued := 0 |}) in
  let post :=
    {| Post.id := "ux"; Post.postedAt := 9;
       Post.title := "Second"; Post.url := "http://y";
       Post.userId := Some "U2" |} in
  let d1 := fst (createPost post (store w)) in
  issued w = 1%nat
  /\ getPost "ux" None (store w) = Resolved None
  /\ PostHandler.create {| randomUUID := "ux"; now := 9 |}
       (req_body [("title", "Second"); ("url", "http://y")]) as_U2 (store w)
     = (d1, Returned (sendStatus 200))
  /\ PostHandler.get env0 (req_params "id" "ux") as_U1 d1
     = (d1, Returned (send (PostBody post))).
Proof.
  intros w post d1.
  destruct (@post_create_then_get MemDb MemDb_Datastore MemDb_Laws
              MemDb_PostStoreLaws sample_uuid
              {| store := db_empty; issued := 0 |}
              [ {| in_entry := Endpoints.createPost;
                   in_req := req_body [("title", "Hi"); ("url", "http://x")];
                   in_locals := as_U1 |};
                {| in_entry := Endpoints.createLike;
                   in_req := req_params "postId" "u";
                   in_locals := as_U2 |} ]
              [(0%nat, 1); (1%nat, 2); (0%nat, 3); (1%nat, 4); (1%nat, 5)]
              (req_body [("title", "Second"); ("url", "http://y")]) as_U2
              "Second" "http://y" 9 env0 (req_params "id" "ux") as_U1
              sample_uuid_inj sample_uuid_not_empty
              (fun i _ => eq_refl) eq_refl eq_refl eq_refl)
    as (_ & F & _ & C & _ & G & _).
  split; [reflexivity|]. split; [exact F|]. split; [exact C | exact G].
Defined.

(** ** Runs of calls *)

Section RunProofs.
Context {DB : Type} {db : Datastore DB}.
Variable uuid_of : nat -> string.


(** A request served alone is the handler run from start to end, on the id
    and the time the environment has for it. *)
Lemma alone_is_handler (i : Incoming) (h : Handler DB) (t : Z)
  (w : World DB) :
  src_handler (in_entry i) = Some h ->
  let env := {| randomUUID := uuid_of (issued w); now := t |} in
  let served := resumes uuid_of 3 t (Arrived (program_of i)) w in
  store (fst served) = fst (h env (in_req i) (in_locals i) (store w))
  /\ snd served = Finished (snd (h env (in_req i) (in_locals i) (store w))).
Proof.
  destruct i as [entry req locals]. cbv zeta.
  unfold program_of; destruct entry; cbn [in_entry in_req in_locals];
    intros S; try discriminate; inversion S; subst; clear S;
    unfold LikeProgram.create, LikeProgram.delete, LikeProgram.list,
      PostProgram.create, PostProgram.delete, PostProgram.get,
      PostProgram.list;
    unfold_handlers;
    repeat match goal with
      | |- context [truthy ?v] => destruct (truthy v)
      end;
    cbn [resumes resume segment fst snd store issued randomUUID now];
    try (split; reflexivity).
  - destruct (listPosts (userId locals) (store w)); cbn; auto.
  - destruct (getPost s (userId locals) (store w)) as [[p|]|e]; cbn; auto.
  - destruct (createPost _ (store w)) as [d' [[]|e]]; cbn; auto.
  - destruct (getLikes s (store w)); cbn; auto.
  - destruct (getPost s None (store w)) as [[p|]|e]; cbn; auto.
    destruct (exists_ _ (store w)) as [[|]|e]; cbn; auto.
  - destruct (getPost s None (store w)) as [[p|]|e]; cbn; auto.
Qed.


End RunProofs.

Lemma like_eqb_eq (a b : Like.t) : like_eqb a b = true <-> a = b.
Proof.
  destruct a as [pa ua], b as [pb ub]; unfold like_eqb; simpl.
  rewrite andb_true_iff, String.eqb_eq. split.
  - intros [-> U]. f_equal.
    destruct ua, ub; simpl in U; try discriminate; auto.
    now apply String.eqb_eq in U; subst.
  - intros E; inversion E; subst. split; auto. apply opt_eqb_refl.
Qed.









